(** * Gold price advisor: recommendation engine, keyword sentiment,
    preprocessing and forecaster

  A shallow embedding of the core of [Smart_Gold_Advisor/src]:
  - [recommendation_engine.py]  (modules [RecommendationEngine] and
    [Binary64]),
  - [real_time_sentiment.py]    (modules [RealTimeSentiment] and
    [RealTimeSentimentFeed]),
  - [data_preprocessing.py]     (module [DataPreprocessing]),
  - [gold_predictor.py]         (module [GoldPredictor]).

  Numbers.  The recommendation engine is given twice.  [Binary64] has
  it on the primitive binary64 floats, operation for operation as the
  interpreter rounds them: the statements about the thresholds of the
  percent change, where one rounding decides the label, are made
  there.  [RecommendationEngine] has it on [pyfloat], an exact
  rational or NaN: the order of the operations, the comparisons (every
  comparison with NaN is false), NaN propagation, the builtin [min]
  and the [ZeroDivisionError] of a division by zero, without rounding
  or overflow.  It carries the statements on the decision table, on
  the shape and the range of the confidence and on invalid inputs.
  The preprocessor and the forecaster compute on exact rationals; their
  statements are about rows, dates, shapes and errors. *)

From Stdlib Require Import QArith Qabs Qminmax Qround Lqa Lia ZArith List String Ascii.
From Stdlib Require Import Floats.
From stdpp Require Import gmap strings list sorting.

Open Scope Q_scope.

(* ===================================================================== *)
(** ** Python values shared by the four modules *)
(* ===================================================================== *)

Module PyNum.

(** A Python float: a finite number or NaN. *)
Inductive pyfloat : Type :=
| Fin (q : Q)
| NaN.

(** The exceptions that the modelled code can raise.  [ValueError]
    carries its message; the messages of the library errors are
    abbreviated. *)
Inductive pyerr : Type :=
| ValueError (msg : string)
| TypeError
| ZeroDivisionError
| AttributeError
| IndexError
| NotFittedError.

(** A computation that returns or raises. *)
Inductive result (A : Type) : Type :=
| Ok (a : A)
| Raise (e : pyerr).
Arguments Ok {A} a.
Arguments Raise {A} e.

Definition bind {A B : Type} (m : result A) (k : A -> result B) : result B :=
  match m with
  | Ok a => k a
  | Raise e => Raise e
  end.

(** [x < y] on rationals, as a boolean. *)
Definition Qltb (x y : Q) : bool := negb (Qle_bool y x).

(** Python's [x > y] and [x < y] on floats: false as soon as one side
    is NaN. *)
Definition fgt (x y : pyfloat) : bool :=
  match x, y with
  | Fin a, Fin b => Qltb b a
  | _, _ => false
  end.

Definition flt (x y : pyfloat) : bool :=
  match x, y with
  | Fin a, Fin b => Qltb a b
  | _, _ => false
  end.

Definition lift2 (f : Q -> Q -> Q) (x y : pyfloat) : pyfloat :=
  match x, y with
  | Fin a, Fin b => Fin (f a b)
  | _, _ => NaN
  end.

Definition fadd : pyfloat -> pyfloat -> pyfloat := lift2 Qplus.
Definition fsub : pyfloat -> pyfloat -> pyfloat := lift2 Qminus.
Definition fmul : pyfloat -> pyfloat -> pyfloat := lift2 Qmult.

(** Python's [x / y] on builtin floats: a zero divisor raises, whatever
    the dividend.  (numpy scalars give an infinity or NaN instead, see
    [Binary64.fdiv].) *)
Definition fdiv (x y : pyfloat) : result pyfloat :=
  match y with
  | Fin b => if Qeq_bool b 0 then Raise ZeroDivisionError
             else Ok (lift2 Qdiv x y)
  | NaN => Ok NaN
  end.

(** Division by a non-zero literal. *)
Definition fdiv_const (x : pyfloat) (c : Q) : pyfloat :=
  match x with
  | Fin a => Fin (a / c)
  | NaN => NaN
  end.

Definition fabs (x : pyfloat) : pyfloat :=
  match x with
  | Fin a => Fin (Qabs a)
  | NaN => NaN
  end.

(** The builtin [min(a, b)]: it keeps [a] unless [b < a]. *)
Definition pymin (a b : pyfloat) : pyfloat :=
  if flt b a then b else a.

(** A dynamically typed argument: a number, a string or [None]. *)
Inductive pyval : Type :=
| VNum (x : pyfloat)
| VStr (s : string)
| VNone.

End PyNum.

Export PyNum.

Declare Scope py_scope.
Delimit Scope py_scope with py.
Notation "x <- m ;; k" := (PyNum.bind m (fun x => k))
(at level 100, m at next level, right associativity) : py_scope.
Open Scope py_scope.

(* ===================================================================== *)
(** ** Text helpers: [str.lower], [str.strip], [in], [join]

  Strings are byte strings; the case mapping and the white space of
  characters outside ASCII are not modelled. *)
(* ===================================================================== *)

Module PyStr.

(** ASCII white space: what [str.strip()] removes and [\s] matches. *)
Definition is_space (c : ascii) : bool :=
  let n := nat_of_ascii c in
  ((9 <=? n)%nat && (n <=? 13)%nat) || ((28 <=? n)%nat && (n <=? 32)%nat).

Definition is_alnum (c : ascii) : bool :=
  let n := nat_of_ascii c in
  ((48 <=? n)%nat && (n <=? 57)%nat)
  || ((65 <=? n)%nat && (n <=? 90)%nat)
  || ((97 <=? n)%nat && (n <=? 122)%nat).

Definition lower_char (c : ascii) : ascii :=
  let n := nat_of_ascii c in
  if ((65 <=? n)%nat && (n <=? 90)%nat) then ascii_of_nat (n + 32) else c.

(** [s.lower()]. *)
Fixpoint lower (s : string) : string :=
  match s with
  | EmptyString => EmptyString
  | String c s' => String (lower_char c) (lower s')
  end.

Fixpoint all_space (s : string) : bool :=
  match s with
  | EmptyString => true
  | String c s' => is_space c && all_space s'
  end.

Fixpoint lstrip (s : string) : string :=
  match s with
  | EmptyString => EmptyString
  | String c s' => if is_space c then lstrip s' else s
  end.

Fixpoint rstrip (s : string) : string :=
  match s with
  | EmptyString => EmptyString
  | String c s' => if all_space s then EmptyString else String c (rstrip s')
  end.

(** [s.strip()]. *)
Definition strip (s : string) : string := rstrip (lstrip s).

(** [re.sub(r'[^a-zA-Z0-9\s]', '', s)]. *)
Fixpoint keep_alnum_space (s : string) : string :=
  match s with
  | EmptyString => EmptyString
  | String c s' =>
      if is_alnum c || is_space c then String c (keep_alnum_space s')
      else keep_alnum_space s'
  end.

(** [k in s]: [k] occurs in [s] as a substring. *)
Fixpoint contains (k s : string) : bool :=
  if String.prefix k s then true
  else match s with
       | EmptyString => false
       | String _ s' => contains k s'
       end.

(** [sep.join(l)]. *)
Definition join (sep : string) (l : list string) : string := String.concat sep l.

(** [s[:n]]. *)
Definition first_chars (n : nat) (s : string) : string := String.substring 0 n s.

End PyStr.

(* ===================================================================== *)
(** ** recommendation_engine.py *)
(* ===================================================================== *)

Module RecommendationEngine.

(** The label strings returned by [analyze_price_trend]. *)
Inductive trend : Type :=
| strong_up | up | strong_down | down | stable.

(** The label strings returned by [analyze_sentiment]. *)
Inductive strength : Type :=
| very_positive | positive | very_negative | negative | neutral.

Inductive action : Type := BUY | SELL | HOLD.

#[global] Instance trend_eq_dec : EqDecision trend.
Proof. solve_decision. Defined.
#[global] Instance strength_eq_dec : EqDecision strength.
Proof. solve_decision. Defined.
#[global] Instance action_eq_dec : EqDecision action.
Proof. solve_decision. Defined.

(** [label in [a, b]] of the source. *)
Definition trend_in (t : trend) (l : list trend) : bool := bool_decide (t ∈ l).
Definition strength_in (s : strength) (l : list strength) : bool := bool_decide (s ∈ l).

Definition analyze_price_trend (current_price predicted_price : pyfloat)
  : result (trend * pyfloat) :=
  let price_change := fsub predicted_price current_price in
  q <- fdiv price_change current_price ;;
  let price_change_pct := fmul q (Fin 100) in
  if fgt price_change_pct (Fin 1.0) then Ok (strong_up, price_change_pct)
  else if fgt price_change_pct (Fin 0.2) then Ok (up, price_change_pct)
  else if flt price_change_pct (Fin (-1.0)) then Ok (strong_down, price_change_pct)
  else if flt price_change_pct (Fin (-0.2)) then Ok (down, price_change_pct)
  else Ok (stable, price_change_pct).

Definition analyze_sentiment (sentiment_score : pyfloat) : strength * pyfloat :=
  if fgt sentiment_score (Fin 0.3) then (very_positive, sentiment_score)
  else if fgt sentiment_score (Fin 0.1) then (positive, sentiment_score)
  else if flt sentiment_score (Fin (-0.3)) then (very_negative, sentiment_score)
  else if flt sentiment_score (Fin (-0.1)) then (negative, sentiment_score)
  else (neutral, sentiment_score).

(** The alignment score chosen by the [if]/[elif] chain of
    [calculate_confidence]. *)
Definition alignment_score (price_trend_strength : trend)
    (sentiment_strength : strength) : Q :=
  if (trend_in price_trend_strength [strong_up; up]
        && strength_in sentiment_strength [very_positive; positive])
     || (trend_in price_trend_strength [strong_down; down]
        && strength_in sentiment_strength [very_negative; negative])
  then 0.8
  else if (trend_in price_trend_strength [strong_up; up]
             && bool_decide (sentiment_strength = neutral))
       || (trend_in price_trend_strength [strong_down; down]
             && bool_decide (sentiment_strength = neutral))
       || (bool_decide (price_trend_strength = stable)
             && strength_in sentiment_strength [very_positive; very_negative])
  then 0.6
  else if bool_decide (price_trend_strength = stable)
          && bool_decide (sentiment_strength = neutral)
  then 0.4
  else 0.2.

Definition calculate_confidence (price_trend_strength : trend)
    (sentiment_strength : strength) (price_change_pct sentiment_score : pyfloat)
  : pyfloat :=
  let alignment := Fin (alignment_score price_trend_strength sentiment_strength) in
  let magnitude_factor :=
    fmul (pymin (fdiv_const (fabs price_change_pct) 2.0) (Fin 1.0)) (Fin 0.2) in
  let sentiment_factor :=
    fmul (pymin (fmul (fabs sentiment_score) (Fin 2)) (Fin 1.0)) (Fin 0.2) in
  pymin (fadd (fadd alignment magnitude_factor) sentiment_factor) (Fin 1.0).

(** One entry of the [reasoning] list.  The f-strings are kept as
    their template and arguments; the rendering of numbers with
    [:.2f] is not modelled. *)
Inductive confidence_level : Type := High | Medium | Low.

Inductive reason : Type :=
| PredictedIncrease (pct : pyfloat)
| PredictedDecrease (abs_pct : pyfloat)
| MarketSentimentIs (s : strength) (v : pyfloat)
| PositiveAligns
| NegativeAligns
| TrendSuggestsIncrease (pct : pyfloat)
| TrendSuggestsDecrease (abs_pct : pyfloat)
| ButSentimentIs (s : strength) (v : pyfloat)
| ConflictingSignals
| PriceTrendIs (t : trend) (pct : pyfloat)
| SentimentIs (s : strength) (v : pyfloat)
| MixedSignals
| LatestNews (excerpt : string)
| ConfidenceLevel (lvl : confidence_level) (c : pyfloat).

(** The dictionary returned by [generate_recommendation]. *)
Record Recommendation : Type := {
  recommendation : action;
  confidence : pyfloat;
  reasoning : list reason;
  current_price : pyfloat;
  predicted_price : pyfloat;
  price_change_pct : pyfloat;
  sentiment_score : pyfloat;
  price_trend : trend;
  sentiment_strength : strength
}.

(** [generate_recommendation].  The attributes assigned on [self]
    repeat the arguments and the results below and are not modelled:
    the returned dictionary is a function of the arguments alone. *)
Definition generate_recommendation (current_price predicted_price
    sentiment_score : pyfloat) (latest_news : string) : result Recommendation :=
  tr <- analyze_price_trend current_price predicted_price ;;
  let '(price_trend, price_change_pct) := tr in
  let '(sentiment_strength, sentiment_value) := analyze_sentiment sentiment_score in
  let confidence :=
    calculate_confidence price_trend sentiment_strength price_change_pct
      sentiment_score in
  let '(recommendation, reasoning) :=
    if trend_in price_trend [strong_up; up]
       && strength_in sentiment_strength [very_positive; positive]
    then (BUY, [PredictedIncrease price_change_pct;
                MarketSentimentIs sentiment_strength sentiment_value;
                PositiveAligns])
    else if trend_in price_trend [strong_down; down]
            && strength_in sentiment_strength [very_negative; negative]
    then (SELL, [PredictedDecrease (fabs price_change_pct);
                 MarketSentimentIs sentiment_strength sentiment_value;
                 NegativeAligns])
    else if trend_in price_trend [strong_up; up]
            && strength_in sentiment_strength [very_negative; negative]
    then (HOLD, [TrendSuggestsIncrease price_change_pct;
                 ButSentimentIs sentiment_strength sentiment_value;
                 ConflictingSignals])
    else if trend_in price_trend [strong_down; down]
            && strength_in sentiment_strength [very_positive; positive]
    then (HOLD, [TrendSuggestsDecrease (fabs price_change_pct);
                 ButSentimentIs sentiment_strength sentiment_value;
                 ConflictingSignals])
    else (HOLD, [PriceTrendIs price_trend price_change_pct;
                 SentimentIs sentiment_strength sentiment_value;
                 MixedSignals]) in
  let reasoning :=
    if negb (PyStr.all_space latest_news)
    then reasoning ++ [LatestNews (PyStr.first_chars 100 latest_news)]
    else reasoning in
  let confidence_level :=
    if fgt confidence (Fin 0.7) then High
    else if fgt confidence (Fin 0.4) then Medium else Low in
  let reasoning := reasoning ++ [ConfidenceLevel confidence_level confidence] in
  Ok {| recommendation := recommendation;
        confidence := confidence;
        reasoning := reasoning;
        current_price := current_price;
        predicted_price := predicted_price;
        price_change_pct := price_change_pct;
        sentiment_score := sentiment_score;
        price_trend := price_trend;
        sentiment_strength := sentiment_strength |}.

(** The same call with dynamically typed arguments.  The first
    operation on the prices is [predicted_price - current_price] and
    the first on the sentiment is [sentiment_score > 0.3], reached
    after the trend analysis: each raises [TypeError] on a string or
    [None]. *)
Definition generate_recommendation_dyn (current_price predicted_price
    sentiment_score : pyval) (latest_news : string) : result Recommendation :=
  match current_price, predicted_price with
  | VNum c, VNum p =>
      match sentiment_score with
      | VNum s => generate_recommendation c p s latest_news
      | _ => _ <- analyze_price_trend c p ;; Raise TypeError
      end
  | _, _ => Raise TypeError
  end.

(** The argument is a number (finite or NaN). *)
Definition is_number (v : pyval) : bool :=
  match v with
  | VNum _ => true
  | _ => false
  end.

(** The argument is the number zero. *)
Definition is_zero (v : pyval) : bool :=
  match v with
  | VNum (Fin q) => Qeq_bool q 0
  | _ => false
  end.

(** *** The alignment buckets as the specification words them

    "0.8 if trend-direction and sentiment-direction agree strongly,
    0.6 if one side is neutral while the other is decisive (or trend
    stable with decisive sentiment), 0.4 if both stable/neutral, 0.2
    otherwise".  [decisive_trend] and [decisive_sentiment] say which
    labels count as decisive. *)
Definition spec_alignment_base (decisive_trend : trend -> bool)
    (decisive_sentiment : strength -> bool) (t : trend) (s : strength) : Q :=
  if (trend_in t [strong_up; up] && strength_in s [very_positive; positive])
     || (trend_in t [strong_down; down] && strength_in s [very_negative; negative])
  then 0.8
  else if (decisive_trend t && bool_decide (s = neutral))
       || (bool_decide (t = stable) && decisive_sentiment s)
  then 0.6
  else if bool_decide (t = stable) && bool_decide (s = neutral)
  then 0.4
  else 0.2.

(** A label is decisive when it has a direction ... *)
Definition directed_trend (t : trend) : bool := negb (bool_decide (t = stable)).
Definition directed_sentiment (s : strength) : bool := negb (bool_decide (s = neutral)).
(** ... or, on the other reading, when it is a strong one. *)
Definition strong_trend (t : trend) : bool := trend_in t [strong_up; strong_down].
Definition strong_sentiment (s : strength) : bool :=
  strength_in s [very_positive; very_negative].

(** The percent change [pct = (predicted - current) / current * 100] of
    the specification. *)
Definition pct_change (current predicted : Q) : Q :=
  (predicted - current) / current * 100.

(** The confidence formula of the specification over a base score. *)
Definition spec_confidence (base pct sentiment : Q) : Q :=
  Qmin 1.0 (base + Qmin (Qabs pct / 2) 1 * 0.2 + Qmin (Qabs sentiment * 2) 1 * 0.2).

End RecommendationEngine.

(* ===================================================================== *)
(** ** recommendation_engine.py on binary64

  The same functions on IEEE 754 binary64 numbers, the [float] of
  Python and of numpy.  Every operation is the primitive one of the
  format: it rounds to the nearest double, and infinities and NaN
  behave as in the interpreter.  A decimal literal of the source is
  the double nearest to it, and an [int] argument is read as the
  double of the same value (exact below 2^53).

  The statements whose truth depends on how the percent change is
  rounded at a threshold are made on this module. *)
(* ===================================================================== *)

Module Binary64.

Import RecommendationEngine.

#[local] Set Warnings "-inexact-float".
#[local] Open Scope float_scope.

(** The kind of the two prices.  [app.py] passes [float(...)] values;
    [train_models.py] passes numpy.float64 scalars, and an operation
    with one numpy operand is a numpy operation.  The two kinds differ
    in the division by zero only. *)
Inductive scalar : Type := builtin_float | numpy_float64.

(** [x > y] and [x < y]: false as soon as one side is NaN. *)
Definition fgt (x y : float) : bool := y <? x.
Definition flt (x y : float) : bool := x <? y.

(** The builtin [min(a, b)]: it keeps [a] unless [b < a]. *)
Definition pymin (a b : float) : float := if flt b a then b else a.

(** [x / y].  A builtin float raises on a zero divisor, 0.0 or -0.0;
    a numpy scalar returns an infinity or NaN (and warns). *)
Definition fdiv (kind : scalar) (x y : float) : result float :=
  match kind with
  | builtin_float =>
      if PrimFloat.is_zero y then Raise ZeroDivisionError else Ok (x / y)
  | numpy_float64 => Ok (x / y)
  end.

Definition analyze_price_trend (kind : scalar) (current_price predicted_price : float)
  : result (trend * float) :=
  let price_change := predicted_price - current_price in
  q <- fdiv kind price_change current_price ;;
  let price_change_pct := q * 100 in
  if fgt price_change_pct 1.0 then Ok (strong_up, price_change_pct)
  else if fgt price_change_pct 0.2 then Ok (up, price_change_pct)
  else if flt price_change_pct (-1.0) then Ok (strong_down, price_change_pct)
  else if flt price_change_pct (-0.2) then Ok (down, price_change_pct)
  else Ok (stable, price_change_pct).

Definition analyze_sentiment (sentiment_score : float) : strength * float :=
  if fgt sentiment_score 0.3 then (very_positive, sentiment_score)
  else if fgt sentiment_score 0.1 then (positive, sentiment_score)
  else if flt sentiment_score (-0.3) then (very_negative, sentiment_score)
  else if flt sentiment_score (-0.1) then (negative, sentiment_score)
  else (neutral, sentiment_score).

Definition alignment_score (price_trend_strength : trend)
    (sentiment_strength : strength) : float :=
  if (trend_in price_trend_strength [strong_up; up]
        && strength_in sentiment_strength [very_positive; positive])
     || (trend_in price_trend_strength [strong_down; down]
        && strength_in sentiment_strength [very_negative; negative])
  then 0.8
  else if (trend_in price_trend_strength [strong_up; up]
             && bool_decide (sentiment_strength = neutral))
       || (trend_in price_trend_strength [strong_down; down]
             && bool_decide (sentiment_strength = neutral))
       || (bool_decide (price_trend_strength = stable)
             && strength_in sentiment_strength [very_positive; very_negative])
  then 0.6
  else if bool_decide (price_trend_strength = stable)
          && bool_decide (sentiment_strength = neutral)
  then 0.4
  else 0.2.

Definition calculate_confidence (price_trend_strength : trend)
    (sentiment_strength : strength) (price_change_pct sentiment_score : float)
  : float :=
  let alignment := alignment_score price_trend_strength sentiment_strength in
  let magnitude_factor := pymin (abs price_change_pct / 2.0) 1.0 * 0.2 in
  let sentiment_factor := pymin (abs sentiment_score * 2) 1.0 * 0.2 in
  pymin (alignment + magnitude_factor + sentiment_factor) 1.0.

(** One entry of the [reasoning] list, the numbers as doubles. *)
Inductive reason : Type :=
| PredictedIncrease (pct : float)
| PredictedDecrease (abs_pct : float)
| MarketSentimentIs (s : strength) (v : float)
| PositiveAligns
| NegativeAligns
| TrendSuggestsIncrease (pct : float)
| TrendSuggestsDecrease (abs_pct : float)
| ButSentimentIs (s : strength) (v : float)
| ConflictingSignals
| PriceTrendIs (t : trend) (pct : float)
| SentimentIs (s : strength) (v : float)
| MixedSignals
| LatestNews (excerpt : string)
| ConfidenceLevel (lvl : confidence_level) (c : float).

Record Recommendation : Type := {
  recommendation : action;
  confidence : float;
  reasoning : list reason;
  current_price : float;
  predicted_price : float;
  price_change_pct : float;
  sentiment_score : float;
  price_trend : trend;
  sentiment_strength : strength
}.

Definition generate_recommendation (kind : scalar) (current_price predicted_price
    sentiment_score : float) (latest_news : string) : result Recommendation :=
  tr <- analyze_price_trend kind current_price predicted_price ;;
  let '(price_trend, price_change_pct) := tr in
  let '(sentiment_strength, sentiment_value) := analyze_sentiment sentiment_score in
  let confidence :=
    calculate_confidence price_trend sentiment_strength price_change_pct
      sentiment_score in
  let '(recommendation, reasoning) :=
    if trend_in price_trend [strong_up; up]
       && strength_in sentiment_strength [very_positive; positive]
    then (BUY, [PredictedIncrease price_change_pct;
                MarketSentimentIs sentiment_strength sentiment_value;
                PositiveAligns])
    else if trend_in price_trend [strong_down; down]
            && strength_in sentiment_strength [very_negative; negative]
    then (SELL, [PredictedDecrease (abs price_change_pct);
                 MarketSentimentIs sentiment_strength sentiment_value;
                 NegativeAligns])
    else if trend_in price_trend [strong_up; up]
            && strength_in sentiment_strength [very_negative; negative]
    then (HOLD, [TrendSuggestsIncrease price_change_pct;
                 ButSentimentIs sentiment_strength sentiment_value;
                 ConflictingSignals])
    else if trend_in price_trend [strong_down; down]
            && strength_in sentiment_strength [very_positive; positive]
    then (HOLD, [TrendSuggestsDecrease (abs price_change_pct);
                 ButSentimentIs sentiment_strength sentiment_value;
                 ConflictingSignals])
    else (HOLD, [PriceTrendIs price_trend price_change_pct;
                 SentimentIs sentiment_strength sentiment_value;
                 MixedSignals]) in
  let reasoning :=
    if negb (PyStr.all_space latest_news)
    then reasoning ++ [LatestNews (PyStr.first_chars 100 latest_news)]
    else reasoning in
  let confidence_level :=
    if fgt confidence 0.7 then High
    else if fgt confidence 0.4 then Medium else Low in
  let reasoning := reasoning ++ [ConfidenceLevel confidence_level confidence] in
  Ok {| recommendation := recommendation;
        confidence := confidence;
        reasoning := reasoning;
        current_price := current_price;
        predicted_price := predicted_price;
        price_change_pct := price_change_pct;
        sentiment_score := sentiment_score;
        price_trend := price_trend;
        sentiment_strength := sentiment_strength |}.

(** The percent change as [analyze_price_trend] computes it: three
    roundings. *)
Definition pct_change (current predicted : float) : float :=
  (predicted - current) / current * 100.

(** The reading of a double by [Prim2SF] is a zero or a finite number. *)
Definition sf_finite (x : spec_float) : Prop :=
  match x with
  | S754_zero _ | S754_finite _ _ _ => True
  | _ => False
  end.

(** It is a finite number other than zero. *)
Definition sf_nonzero (x : spec_float) : Prop :=
  match x with
  | S754_finite _ _ _ => True
  | _ => False
  end.

End Binary64.

(* ===================================================================== *)
(** ** real_time_sentiment.py *)
(* ===================================================================== *)

Module RealTimeSentiment.

Import RecommendationEngine.

(** The three keyword lists held by the analyzer. *)
Record RealTimeSentimentAnalyzer : Type := {
  positive_keywords : list string;
  negative_keywords : list string;
  neutral_keywords : list string
}.

(** [__init__]. *)
Definition init : RealTimeSentimentAnalyzer := {|
  positive_keywords :=
    ["rise"; "up"; "gain"; "increase"; "surge"; "rally"; "bullish"; "strong";
     "positive"; "optimistic"; "growth"; "demand"; "inflation"; "safe haven";
     "uncertainty"; "crisis"; "fear"; "volatility"; "dollar weak"; "fed cut";
     "stimulus"; "quantitative easing"; "recession"; "geopolitical"]%string;
  negative_keywords :=
    ["fall"; "down"; "drop"; "decline"; "plunge"; "crash"; "bearish"; "weak";
     "negative"; "pessimistic"; "loss"; "supply"; "deflation"; "dollar strong";
     "fed hike"; "rate increase"; "tapering"; "recovery"; "stability"; "peace"]%string;
  neutral_keywords :=
    ["stable"; "unchanged"; "flat"; "sideways"; "consolidation"; "range";
     "technical"; "analysis"; "chart"; "support"; "resistance"; "trend"]%string
|}.

(** [sum(1 for keyword in keywords if keyword in text_lower)]. *)
Definition count_hits (keywords : list string) (text_lower : string) : nat :=
  length (List.filter (fun keyword => PyStr.contains keyword text_lower) keywords).

(** [a / b] on two integers, [b] not zero. *)
Definition int_div (a b : Z) : Q := inject_Z a / inject_Z b.

Definition analyze_sentiment (self : RealTimeSentimentAnalyzer) (text : string)
  : pyfloat * strength :=
  let text_lower := PyStr.lower text in
  let positive_count := count_hits (positive_keywords self) text_lower in
  let negative_count := count_hits (negative_keywords self) text_lower in
  let neutral_count := count_hits (neutral_keywords self) text_lower in
  let total_keywords := (positive_count + negative_count + neutral_count)%nat in
  if (total_keywords =? 0)%nat then (Fin 0.0, neutral)
  else
    let sentiment_score :=
      Fin (int_div (Z.of_nat positive_count - Z.of_nat negative_count)
                   (Z.of_nat total_keywords)) in
    let sentiment_strength :=
      if fgt sentiment_score (Fin 0.3) then very_positive
      else if fgt sentiment_score (Fin 0.1) then positive
      else if flt sentiment_score (Fin (-0.3)) then very_negative
      else if flt sentiment_score (Fin (-0.1)) then negative
      else neutral in
    (sentiment_score, sentiment_strength).

End RealTimeSentiment.

(* ===================================================================== *)
(** ** real_time_sentiment.py: the news feed

    The HTTP request is outside the model: [fetch_gold_news] receives
    its outcome, [Some] of the anchor texts of the page in document
    order (each as [get_text(strip=True)] gives it) when the request
    returned status 200 and the page parsed, [None] otherwise.  The
    time stamp of an article is not modelled. *)
(* ===================================================================== *)

Module RealTimeSentimentFeed.

Import RecommendationEngine RealTimeSentiment.

Record article : Type := {
  title : string;
  source : string
}.

Definition sample_news : list string :=
  [ "Gold prices surge as inflation concerns mount";
    "Federal Reserve hints at rate cuts, boosting gold demand";
    "Geopolitical tensions drive safe-haven gold buying";
    "Dollar weakness supports gold price rally";
    "Gold futures fall on profit-taking after recent gains";
    "Strong economic data weighs on gold prices";
    "Gold consolidates near resistance levels";
    "Central bank buying supports gold market";
    "Gold prices stable amid mixed economic signals";
    "Technical analysis suggests gold may break higher" ]%string.

Definition generate_sample_news (num_articles : nat) : list article :=
  map (fun t => {| title := t; source := "Sample News" |})
      (take num_articles sample_news).

(** [title and any(keyword in title.lower() for keyword in [...])]. *)
Definition mentions_gold (title : string) : bool :=
  negb (String.eqb title EmptyString)
  && existsb (fun keyword => PyStr.contains keyword (PyStr.lower title))
       ["gold"; "precious"; "metal"; "bullion"]%string.

Definition fetch_gold_news (response : option (list string)) (num_articles : nat)
  : list article :=
  let news_articles :=
    match response with
    | Some anchors =>
        map (fun t => {| title := t; source := "Reuters" |})
            (List.filter mentions_gold (take num_articles anchors))
    | None => []
    end in
  match news_articles with
  | [] => generate_sample_news num_articles
  | _ => news_articles
  end.

End RealTimeSentimentFeed.

(* ===================================================================== *)
(** ** data_preprocessing.py

  A data frame is the list of its rows.  Dates are parsed time stamps,
  counted in days.  The attributes [gold_data], [sentiment_data] and
  [merged_data] of the preprocessor are threaded by [preprocess_all]
  in the order of the source.

  [sort_values] keeps rows of equal date in the order they had.
  pandas' default quicksort promises no order among such rows, and no
  theorem below depends on that order. *)
(* ===================================================================== *)

Module DataPreprocessing.

(** A row of the price file, columns [Date] and [SF_Price]; a missing
    price is [None]. *)
Record gold_raw : Type := {
  raw_Date : Z;
  raw_SF_Price : option Q
}.

(** A row of the cleaned price frame. *)
Record gold_row : Type := {
  g_Date : Z;
  g_SF_Price : Q
}.

(** A row of the sentiment file.  [sraw_Date] is [None] for the
    marker [#VALUE!], for a missing date and for a date that does not
    parse as day-month-year. *)
Record sentiment_raw : Type := {
  sraw_Date : option Z;
  sraw_News : string;
  sraw_Sentiment : string
}.

(** A row of the cleaned sentiment frame. *)
Record sentiment_row : Type := {
  s_Date : Z;
  s_News : string;
  s_Sentiment_score : Q
}.

(** A row of the aggregated sentiment frame. *)
Record daily_sentiment : Type := {
  d_Date : Z;
  d_Sentiment_score : Q;
  d_News : string
}.

(** A row right after the left join: the sentiment columns are
    missing where no sentiment row has the date. *)
Record joined_row : Type := {
  j_Date : Z;
  j_SF_Price : Q;
  j_Sentiment_score : option Q;
  j_News : option string
}.

(** A row of the merged frame. *)
Record row : Type := {
  Date : Z;
  SF_Price : Q;
  Sentiment_score : Q;
  News : string
}.

(** [sort_values('Date')]: ascending by date, the rows of equal date
    in the order they had.  [insert_by_date] puts a row in front of the
    first row that is not older. *)
Fixpoint insert_by_date {A : Type} (key : A -> Z) (x : A) (frame : list A) : list A :=
  match frame with
  | [] => [x]
  | y :: frame' =>
      if (key x <=? key y)%Z then x :: y :: frame'
      else y :: insert_by_date key x frame'
  end.

Definition sort_values {A : Type} (key : A -> Z) (frame : list A) : list A :=
  fold_right (insert_by_date key) [] frame.

(** [dropna(subset=['SF_Price'])]. *)
Definition dropna_price (r : gold_raw) : option gold_row :=
  match raw_SF_Price r with
  | Some p => Some {| g_Date := raw_Date r; g_SF_Price := p |}
  | None => None
  end.

Definition clean_gold_data (gold_data : list gold_raw) : list gold_row :=
  sort_values g_Date (omap dropna_price gold_data).

(** [sentiment_mapping]; a label outside the table maps to a missing
    score. *)
Definition sentiment_mapping (label : string) : option Q :=
  if String.eqb label "negative" then Some (-1)
  else if String.eqb label "neutral" then Some 0
  else if String.eqb label "positive" then Some 1
  else if String.eqb label "none" then Some 0
  else None.

Definition clean_news (news : string) : string :=
  PyStr.keep_alnum_space (PyStr.strip (PyStr.lower news)).

Definition clean_sentiment_row (r : sentiment_raw) : option sentiment_row :=
  match sraw_Date r, sentiment_mapping (sraw_Sentiment r) with
  | Some d, Some sc =>
      Some {| s_Date := d; s_News := clean_news (sraw_News r);
              s_Sentiment_score := sc |}
  | _, _ => None
  end.

Definition clean_sentiment_data (sentiment_data : list sentiment_raw)
  : list sentiment_row :=
  sort_values s_Date (omap clean_sentiment_row sentiment_data).

(** [x.unique()]: the distinct values in order of first appearance. *)
Fixpoint unique (l : list string) : list string :=
  match l with
  | [] => []
  | x :: l' => x :: List.filter (fun y => negb (String.eqb x y)) (unique l')
  end.

Definition Qsum (l : list Q) : Q := fold_right Qplus 0 l.

(** [mean] of a non-empty column. *)
Definition mean (l : list Q) : Q := Qsum l / inject_Z (Z.of_nat (length l)).

(** The rows of one group of [groupby('Date')]. *)
Definition group (sentiment_data : list sentiment_row) (d : Z) : list sentiment_row :=
  List.filter (fun r => bool_decide (s_Date r = d)) sentiment_data.

Definition aggregate_group (sentiment_data : list sentiment_row) (d : Z)
  : daily_sentiment :=
  let g := group sentiment_data d in
  {| d_Date := d;
     d_Sentiment_score := mean (map s_Sentiment_score g);
     d_News := PyStr.join " | " (take 5 (unique (map s_News g))) |}.

(** [groupby('Date').agg(...)]: one row per distinct date, the dates
    in ascending order. *)
Definition aggregate_sentiment_by_date (sentiment_data : list sentiment_row)
  : list daily_sentiment :=
  map (aggregate_group sentiment_data)
      (sort_values id (remove_dups (map s_Date sentiment_data))).

(** The rows that the left join produces for one price row. *)
Definition join_row (sentiment_data : list daily_sentiment) (g : gold_row)
  : list joined_row :=
  match List.filter (fun d => bool_decide (d_Date d = g_Date g)) sentiment_data with
  | [] => [ {| j_Date := g_Date g; j_SF_Price := g_SF_Price g;
               j_Sentiment_score := None; j_News := None |} ]
  | ms => map (fun d => {| j_Date := g_Date g; j_SF_Price := g_SF_Price g;
                           j_Sentiment_score := Some (d_Sentiment_score d);
                           j_News := Some (d_News d) |}) ms
  end.

(** [pd.merge(gold_data, sentiment_data, on='Date', how='left')]. *)
Definition merge_left (gold_data : list gold_row)
    (sentiment_data : list daily_sentiment) : list joined_row :=
  flat_map (join_row sentiment_data) gold_data.

(** The two [fillna] calls. *)
Definition fillna (j : joined_row) : row :=
  {| Date := j_Date j;
     SF_Price := j_SF_Price j;
     Sentiment_score := default 0 (j_Sentiment_score j);
     News := default EmptyString (j_News j) |}.

Definition merge_data (gold_data : list gold_row)
    (sentiment_data : list daily_sentiment) : list row :=
  sort_values Date (map fillna (merge_left gold_data sentiment_data)).

(** [preprocess_all], after the two files are loaded. *)
Definition preprocess_all (gold_file : list gold_raw)
    (sentiment_file : list sentiment_raw) : list row :=
  let gold_data := clean_gold_data gold_file in
  let sentiment_data := clean_sentiment_data sentiment_file in
  let sentiment_data := aggregate_sentiment_by_date sentiment_data in
  merge_data gold_data sentiment_data.

(** A character that cleaning leaves in a headline: a lower-case
    letter, a digit or white space. *)
Definition clean_char (c : ascii) : Prop :=
  (PyStr.is_alnum c || PyStr.is_space c) = true /\ PyStr.lower_char c = c.

(** The price rows that survive cleaning, in file order. *)
Definition valid_price_rows (gold_file : list gold_raw) : list gold_row :=
  omap dropna_price gold_file.

(** The dates for which the sentiment file has a usable row. *)
Definition sentiment_dates (sentiment_file : list sentiment_raw) : list Z :=
  map s_Date (omap clean_sentiment_row sentiment_file).

End DataPreprocessing.

(* ===================================================================== *)
(** ** gold_predictor.py

  The series is the merged frame of the preprocessor, free of missing
  values.  scikit-learn and joblib are outside the repository: the
  scaler follows the documented behaviour of [MinMaxScaler] on the
  range (0, 1), the regressor is a fitted function together with the
  number of features it was fitted on, and the files written by
  [joblib.dump] are a finite map from paths to objects. *)
(* ===================================================================== *)

Module GoldPredictor.

Import DataPreprocessing.

(** [MinMaxScaler]: the bounds seen by [fit], [None] before. *)
Record MinMaxScaler : Type := {
  data_bounds : option (Q * Q)
}.

Definition unfitted_scaler : MinMaxScaler := {| data_bounds := None |}.

Definition scale_ (b : Q * Q) : Q :=
  let data_range := snd b - fst b in
  1 / (if Qeq_bool data_range 0 then 1 else data_range).

Definition min_ (b : Q * Q) : Q := 0 - fst b * scale_ b.

(** [fit] on one column; an empty column is refused. *)
Definition fit (column : list Q) : result MinMaxScaler :=
  match column with
  | [] => Raise (ValueError "Found array with 0 sample(s)")
  | x :: xs =>
      Ok {| data_bounds := Some (fold_right Qmin x xs, fold_right Qmax x xs) |}
  end.

Definition transform (sc : MinMaxScaler) (column : list Q) : result (list Q) :=
  match data_bounds sc with
  | None => Raise NotFittedError
  | Some b =>
      match column with
      | [] => Raise (ValueError "Found array with 0 sample(s)")
      | _ => Ok (map (fun x => x * scale_ b + min_ b) column)
      end
  end.

Definition inverse_transform (sc : MinMaxScaler) (x : Q) : result Q :=
  match data_bounds sc with
  | None => Raise NotFittedError
  | Some b => Ok ((x - min_ b) / scale_ b)
  end.

(** A regressor as [build_model] returns it, and after [fit]. *)
Inductive regressor : Type :=
| Unfitted
| Fitted (n_features_in : nat) (f : list Q -> Q).

(** [model.predict(X)[0]] for the single row [x]. *)
Definition predict_row (m : regressor) (x : list Q) : result Q :=
  match m with
  | Unfitted => Raise NotFittedError
  | Fitted n f =>
      if (length x =? 0)%nat then Raise (ValueError "Found array with 0 feature(s)")
      else if (length x =? n)%nat then Ok (f x)
      else Raise (ValueError "X has a different number of features than the regressor expects")
  end.

(** What a pickle file or the [model] attribute can hold. *)
Inductive pyobj : Type :=
| ObjNone
| ObjRegressor (m : regressor)
| ObjScalers (price_scaler sentiment_scaler : MinMaxScaler).

Record GoldPricePredictor : Type := {
  sequence_length : nat;
  scaler_price : MinMaxScaler;
  scaler_sentiment : MinMaxScaler;
  model : pyobj;
  is_trained : bool
}.

(** [__init__]. *)
Definition init (sequence_length : nat) : GoldPricePredictor := {|
  sequence_length := sequence_length;
  scaler_price := unfitted_scaler;
  scaler_sentiment := unfitted_scaler;
  model := ObjNone;
  is_trained := false
|}.

Definition set_scalers (self : GoldPricePredictor) (p s : MinMaxScaler)
  : GoldPricePredictor :=
  {| sequence_length := sequence_length self;
     scaler_price := p; scaler_sentiment := s;
     model := model self; is_trained := is_trained self |}.

Definition set_model (self : GoldPricePredictor) (m : pyobj) : GoldPricePredictor :=
  {| sequence_length := sequence_length self;
     scaler_price := scaler_price self; scaler_sentiment := scaler_sentiment self;
     model := m; is_trained := is_trained self |}.

Definition set_is_trained (self : GoldPricePredictor) (b : bool) : GoldPricePredictor :=
  {| sequence_length := sequence_length self;
     scaler_price := scaler_price self; scaler_sentiment := scaler_sentiment self;
     model := model self; is_trained := b |}.

(** [series.tail(n)]: the last [n] entries, all of them if fewer. *)
Definition tail {A : Type} (n : nat) (l : list A) : list A :=
  drop (length l - n) l.

(** [a[lo:hi]] for [0 <= lo <= hi]. *)
Definition slice {A : Type} (lo hi : nat) (l : list A) : list A :=
  take (hi - lo) (drop lo l).

(** [prepare_data]: both scalers are refitted on the whole series,
    then one example per index [i] from the window size on.  The
    result is the predictor with its new scalers and the pair (X, y). *)
Definition prepare_data (self : GoldPricePredictor) (data : list row)
  : result (GoldPricePredictor * (list (list Q) * list Q)) :=
  let prices := map SF_Price data in
  let sentiment := map Sentiment_score data in
  sp <- fit prices ;;
  prices_scaled <- transform sp prices ;;
  ss <- fit sentiment ;;
  sentiment_scaled <- transform ss sentiment ;;
  let w := sequence_length self in
  let idx := seq w (length prices_scaled - w) in
  let X := map (fun i => slice (i - w) i prices_scaled
                         ++ slice (i - w) i sentiment_scaled) idx in
  let y := map (fun i => nth i prices_scaled 0) idx in
  Ok (set_scalers self sp ss, (X, y)).

(** [int(len(X) * (1 - validation_split))], for a split in [0, 1].  The
    product is exact here.  The source rounds it in binary64: for the
    default split 0.2 that gives the same index, for another split
    the two can differ by one at an integer boundary.  The theorems on
    a successful training use the default split. *)
Definition split_index (n : nat) (validation_split : Q) : nat :=
  Z.to_nat (Qfloor (inject_Z (Z.of_nat n) * (1 - validation_split))).

(** [train_model], as far as the state of the predictor goes: the
    error metrics it prints and returns are not modelled, and a call
    that raises is not given a resulting state.  [learn X y] is the
    function that fitting a random forest on (X, y) produces. *)
Definition train_model (learn : list (list Q) -> list Q -> list Q -> Q)
    (self : GoldPricePredictor) (data : list row) (validation_split : Q)
  : result GoldPricePredictor :=
  p <- prepare_data self data ;;
  let '(self, (X, y)) := p in
  let split_idx := split_index (length X) validation_split in
  let X_train := take split_idx X in
  let X_val := drop split_idx X in
  let y_train := take split_idx y in
  match X_train, X_val with
  | [], _ => Raise (ValueError "Found array with 0 sample(s)")
  | _, [] => Raise (ValueError "Found array with 0 sample(s)")
  | x :: _, _ :: _ =>
      let self := set_model self (ObjRegressor (Fitted (length x) (learn X_train y_train))) in
      Ok (set_is_trained self true)
  end.

Definition not_trained_message : string :=
  "Model must be trained before making predictions".

Definition predict_next_day (self : GoldPricePredictor) (data : list row)
  : result Q :=
  if negb (is_trained self) then Raise (ValueError not_trained_message)
  else
    let last_prices := tail (sequence_length self) (map SF_Price data) in
    let last_sentiment := tail (sequence_length self) (map Sentiment_score data) in
    prices_scaled <- transform (scaler_price self) last_prices ;;
    sentiment_scaled <- transform (scaler_sentiment self) last_sentiment ;;
    let combined_features := prices_scaled ++ sentiment_scaled in
    prediction_scaled <-
      match model self with
      | ObjRegressor m => predict_row m combined_features
      | _ => Raise AttributeError
      end ;;
    inverse_transform (scaler_price self) prediction_scaled.

(** [current_data['Date'].iloc[-1]]. *)
Definition last_date (data : list row) : result Z :=
  match last data with
  | Some r => Ok (Date r)
  | None => Raise IndexError
  end.

(** The row appended after a prediction. *)
Definition new_row (next_date : Z) (next_price avg_sentiment : Q) : row :=
  {| Date := next_date; SF_Price := next_price;
     Sentiment_score := avg_sentiment; News := EmptyString |}.

(** [days] rounds of the loop of [predict_next_week]. *)
Fixpoint week_loop (self : GoldPricePredictor) (days : nat)
    (current_data : list row) (predictions : list Q) : result (list Q) :=
  match days with
  | O => Ok predictions
  | S days' =>
      next_price <- predict_next_day self current_data ;;
      let predictions := predictions ++ [next_price] in
      let avg_sentiment := mean (map Sentiment_score current_data) in
      d <- last_date current_data ;;
      let next_date := (d + 1)%Z in
      let current_data := current_data ++ [new_row next_date next_price avg_sentiment] in
      week_loop self days' current_data predictions
  end.

Definition predict_next_week (self : GoldPricePredictor) (data : list row)
  : result (list Q) :=
  if negb (is_trained self) then Raise (ValueError not_trained_message)
  else week_loop self 7 data [].

(** The files on disk are a map from paths to the objects dumped. *)

Definition default_model_path : string := "models/gold_predictor_model.pkl".
Definition default_scaler_path : string := "models/scalers.pkl".

Definition save_model (self : GoldPricePredictor) (model_path scaler_path : string)
    (fs : gmap string pyobj) : gmap string pyobj :=
  if is_trained self then
    <[scaler_path := ObjScalers (scaler_price self) (scaler_sentiment self)]>
      (<[model_path := model self]> fs)
  else fs.

(** [load_model]: every exception is caught and leaves the predictor
    untrained; the model attribute is assigned before the scalers are
    read. *)
Definition load_model (self : GoldPricePredictor) (model_path scaler_path : string)
    (fs : gmap string pyobj) : GoldPricePredictor :=
  match fs !! model_path with
  | None => set_is_trained self false
  | Some m =>
      let self := set_model self m in
      match fs !! scaler_path with
      | Some (ObjScalers p s) => set_is_trained (set_scalers self p s) true
      | _ => set_is_trained self false
      end
  end.

(** *** The horizon forecast as the specification words it

    "repeat [predict_next] n times; after each prediction, append a
    synthetic row to the working series with the predicted price and
    a sentiment score equal to the mean of the sentiment_score column
    observed so far". *)

(** The working series after [k] predictions. *)
Fixpoint working_series (self : GoldPricePredictor) (data : list row) (k : nat)
  : result (list row) :=
  match k with
  | O => Ok data
  | S k' =>
      series <- working_series self data k' ;;
      price <- predict_next_day self series ;;
      d <- last_date series ;;
      Ok (series ++ [new_row (d + 1)%Z price (mean (map Sentiment_score series))])
  end.

(** The estimate of step [k], counted from 0. *)
Definition horizon_estimate (self : GoldPricePredictor) (data : list row) (k : nat)
  : result Q :=
  series <- working_series self data k ;;
  predict_next_day self series.

Fixpoint sequence {A : Type} (l : list (result A)) : result (list A) :=
  match l with
  | [] => Ok []
  | m :: l' => a <- m ;; rest <- sequence l' ;; Ok (a :: rest)
  end.

Definition predict_horizon (self : GoldPricePredictor) (data : list row)
    (n_days : nat) : result (list Q) :=
  sequence (map (horizon_estimate self data) (seq 0 n_days)).

(** The predictor can predict: it is marked trained, its scalers are
    fitted and its regressor was fitted on windows of its own size. *)
Definition ready (self : GoldPricePredictor) : Prop :=
  is_trained self = true
  /\ (exists f, model self = ObjRegressor (Fitted (2 * sequence_length self) f))
  /\ is_Some (data_bounds (scaler_price self))
  /\ is_Some (data_bounds (scaler_sentiment self))
  /\ (1 <= sequence_length self)%nat.

End GoldPredictor.

(* ===================================================================== *)
(** ** Concrete inputs used by the examples below *)
(* ===================================================================== *)

Module Examples.

Import DataPreprocessing GoldPredictor.

(** A price file with two rows of the same date. *)
Definition repeated_date_file : list gold_raw :=
  [ {| raw_Date := 1; raw_SF_Price := Some 10 |};
    {| raw_Date := 1; raw_SF_Price := Some 11 |} ].

(** A price file out of order, with one missing price, and a sentiment
    file with one usable headline. *)
Definition three_price_rows : list gold_raw :=
  [ {| raw_Date := 3; raw_SF_Price := Some 1812 |};
    {| raw_Date := 1; raw_SF_Price := Some 1800 |};
    {| raw_Date := 2; raw_SF_Price := None |} ].

Definition two_headlines : list sentiment_raw :=
  [ {| sraw_Date := Some 1%Z; sraw_News := " Gold UP! "; sraw_Sentiment := "positive" |};
    {| sraw_Date := None; sraw_News := "undated"; sraw_Sentiment := "negative" |} ].

Definition day (d : Z) (price sentiment : Q) : row :=
  {| Date := d; SF_Price := price; Sentiment_score := sentiment; News := EmptyString |}.

(** Five days of prices and sentiment. *)
Definition five_days : list row :=
  [ day 1 1800 0; day 2 1810 1; day 3 1805 (-1); day 4 1820 0; day 5 1830 1 ].

(** A learner that ignores its training set and averages the features. *)
Definition mean_learner (X : list (list Q)) (y : list Q) (x : list Q) : Q :=
  Qred (mean x).

(** A predictor trained by hand on windows of two days. *)
Definition trained_on_2 : GoldPricePredictor :=
  {| sequence_length := 2;
     scaler_price := {| data_bounds := Some (1800, 1830) |};
     scaler_sentiment := {| data_bounds := Some (-1, 1) |};
     model := ObjRegressor (Fitted 4 (mean_learner [] []));
     is_trained := true |}.

(** The same state as a predictor configured for windows of three days
    would hold it. *)
Definition trained_on_2_as_3 : GoldPricePredictor :=
  {| sequence_length := 3;
     scaler_price := scaler_price trained_on_2;
     scaler_sentiment := scaler_sentiment trained_on_2;
     model := model trained_on_2;
     is_trained := true |}.

End Examples.

Export Examples.

(* ===================================================================== *)
(** * Properties *)
(* ===================================================================== *)

(** ** Numbers *)

Section NumberFacts.

Lemma Qltb_lt (x y : Q) : Qltb x y = true <-> x < y.
Proof.
  unfold Qltb. rewrite negb_true_iff, <- not_true_iff_false, Qle_bool_iff.
  split; [apply Qnot_le_lt | apply Qlt_not_le].
Qed.

Lemma Qltb_ge (x y : Q) : Qltb x y = false <-> y <= x.
Proof.
  unfold Qltb. rewrite negb_false_iff. apply Qle_bool_iff.
Qed.

Lemma Qeq_bool_false (x y : Q) : ~ x == y -> Qeq_bool x y = false.
Proof.
  intros H. apply not_true_iff_false. intros E. apply H, Qeq_bool_iff, E.
Qed.

Lemma pymin_Fin (a b : Q) :
  exists m, pymin (Fin a) (Fin b) = Fin m /\ m == Qmin a b.
Proof.
  unfold pymin, flt. destruct (Qltb b a) eqn:E.
  - exists b. split; [reflexivity|]. apply Qltb_lt in E.
    symmetry. apply Q.min_r. apply Qlt_le_weak, E.
  - exists a. split; [reflexivity|]. apply Qltb_ge in E.
    symmetry. apply Q.min_l, E.
Qed.

Lemma pymin_NaN_l (b : pyfloat) : pymin NaN b = NaN.
Proof. unfold pymin, flt. destruct b; reflexivity. Qed.

Lemma fgt_NaN_l (y : pyfloat) : fgt NaN y = false.
Proof. reflexivity. Qed.

Lemma flt_NaN_l (y : pyfloat) : flt NaN y = false.
Proof. reflexivity. Qed.

Lemma Qmin_bounds (x : Q) : 0 <= x -> 0 <= Qmin x 1 /\ Qmin x 1 <= 1.
Proof.
  intros H. split.
  - apply Q.min_glb; [exact H | lra].
  - apply Q.le_min_r.
Qed.

End NumberFacts.

(** ** Binary64 numbers

  The primitive operations are specified by [Prim2SF], which reads a
  double as a sign, a mantissa and an exponent, and by the functions
  of [SpecFloat] on such triples. *)

Section RoundingFacts.

Open Scope Z_scope.

Lemma iter_pos_shr_1_nonneg (p : positive) (mrs : shr_record) :
  0 <= shr_m mrs -> 0 <= shr_m (SpecFloat.iter_pos shr_1 p mrs).
Proof.
  assert (step : forall r, 0 <= shr_m r -> 0 <= shr_m (shr_1 r)).
  { intros [m r s]; cbn. destruct m as [|[q|q|]|q]; cbn; lia. }
  revert mrs. induction p as [p IH|p IH|]; intros mrs H; cbn; auto.
Qed.

Lemma shr_fexp_nonneg (m e : Z) (l : location) :
  0 <= m -> 0 <= shr_m (fst (shr_fexp prec emax m e l)).
Proof.
  intros H. unfold shr_fexp, shr.
  assert (H0 : 0 <= shr_m (shr_record_of_loc m l)).
  { destruct l as [|[]]; cbn; exact H. }
  destruct (fexp prec emax (Zdigits2 m + e) - e); cbn [fst]; try exact H0.
  now apply iter_pos_shr_1_nonneg.
Qed.

Lemma round_nearest_even_nonneg (m : Z) (l : location) :
  0 <= m -> 0 <= round_nearest_even m l.
Proof.
  intros H. destruct l as [|[]]; cbn; try lia.
  destruct (Z.even m); lia.
Qed.

(** Rounding a non-negative mantissa never gives NaN: the result is a
    zero, a finite number or an infinity. *)
Lemma binary_round_aux_number (sx : bool) (mx ex : Z) (lx : location) :
  0 <= mx -> binary_round_aux prec emax sx mx ex lx <> S754_nan.
Proof.
  intros H. unfold binary_round_aux.
  pose proof (shr_fexp_nonneg mx ex lx H) as H1.
  destruct (shr_fexp prec emax mx ex lx) as [mrs' e']. cbn [fst] in H1.
  pose proof (shr_fexp_nonneg _ e' loc_Exact
                (round_nearest_even_nonneg _ (loc_of_shr_record mrs') H1)) as H2.
  destruct (shr_fexp prec emax _ e' loc_Exact) as [mrs'' e'']. cbn [fst] in H2.
  destruct (shr_m mrs''); try lia; try discriminate.
  destruct (e'' <=? emax - prec); discriminate.
Qed.

Lemma binary_normalize_number (m e : Z) (szero : bool) :
  binary_normalize prec emax m e szero <> S754_nan.
Proof.
  unfold binary_normalize, binary_round.
  destruct m; try discriminate.
  - destruct (shl_align _ _ _); apply binary_round_aux_number; lia.
  - destruct (shl_align _ _ _); apply binary_round_aux_number; lia.
Qed.

Lemma SF64sub_number (x y : spec_float) :
  Binary64.sf_finite x -> Binary64.sf_finite y -> SF64sub x y <> S754_nan.
Proof.
  destruct x as [sx|sx| |sx mx ex], y as [sy|sy| |sy my ey]; cbn; try tauto; intros _ _.
  - destruct sx, sy; discriminate.
  - discriminate.
  - discriminate.
  - apply binary_normalize_number.
Qed.

Lemma SF64div_number (x y : spec_float) :
  x <> S754_nan -> Binary64.sf_nonzero y -> SF64div x y <> S754_nan.
Proof.
  destruct x as [sx|sx| |sx mx ex], y as [sy|sy| |sy my ey]; cbn; try tauto;
    intros _ _; try discriminate.
  unfold SFdiv_core_binary.
  destruct (Z.div_eucl _ (Z.pos my)) as [q r] eqn:E.
  apply binary_round_aux_number.
  match type of E with Z.div_eucl ?a ?b = _ =>
    assert (Ha : 0 <= a); [|pose proof (Z.div_pos a b Ha ltac:(lia)) as Hq;
      unfold Z.div in Hq; rewrite E in Hq; exact Hq] end.
  match goal with |- 0 <= match ?s with _ => _ end => destruct s eqn:Es end; try lia.
  apply Z.shiftl_nonneg. lia.
Qed.

Lemma SF64mul_number (x y : spec_float) :
  x <> S754_nan -> Binary64.sf_nonzero y -> SF64mul x y <> S754_nan.
Proof.
  destruct x as [sx|sx| |sx mx ex], y as [sy|sy| |sy my ey]; cbn; try tauto;
    intros _ _; try discriminate.
  apply binary_round_aux_number. lia.
Qed.

Lemma SFcompare_antisym (x y : spec_float) :
  SFcompare y x = option_map CompOpp (SFcompare x y).
Proof.
  destruct x as [sx|sx| |sx mx ex], y as [sy|sy| |sy my ey]; cbn;
    try reflexivity; try (destruct sx; reflexivity); try (destruct sy; reflexivity);
    try (destruct sx, sy; reflexivity).
  assert (Hm : Pos.compare_cont Eq my mx = CompOpp (Pos.compare_cont Eq mx my))
    by (symmetry; apply (Pos.compare_cont_antisym mx my Eq)).
  rewrite (Z.compare_antisym ex ey), Hm.
  destruct sx, sy, (ex ?= ey)%Z; cbn; try reflexivity;
    destruct (Pos.compare_cont Eq mx my); reflexivity.
Qed.

Lemma SFltb_asym (x y : spec_float) : SFltb x y = true -> SFltb y x = false.
Proof.
  unfold SFltb. rewrite (SFcompare_antisym x y).
  destruct (SFcompare x y) as [[]|]; cbn; congruence.
Qed.

Lemma SFltb_trans (x y z : spec_float) :
  SFltb x y = true -> SFltb y z = true -> SFltb x z = true.
Proof.
  unfold SFltb.
  destruct x as [sx|sx| |sx mx ex], y as [sy|sy| |sy my ey], z as [sz|sz| |sz mz ez];
    cbn -[Z.compare Pos.compare_cont]; try discriminate;
    try (destruct sx; discriminate); try (destruct sy; discriminate);
    try (destruct sz; discriminate);
    try (destruct sx, sy; discriminate); try (destruct sy, sz; discriminate);
    try (destruct sx, sz; discriminate); try (destruct sx, sy, sz; discriminate);
    try (destruct sx, sy, sz; intros; (discriminate || reflexivity)).
  all: change (PosDef.Pos.compare_cont Eq) with Pos.compare.
  all: destruct sx, sy, sz; try discriminate; try reflexivity.
  all: destruct (Z.compare_spec ex ey), (Z.compare_spec ey ez), (Z.compare_spec ex ez);
    try discriminate; try reflexivity; try lia; subst.
  all: destruct (Pos.compare_spec mx my), (Pos.compare_spec my mz), (Pos.compare_spec mx mz);
    cbn; try discriminate; try reflexivity; try lia.
Qed.

End RoundingFacts.

Section Binary64Facts.

#[local] Set Warnings "-inexact-float".
Open Scope float_scope.

(** A double is a number iff its reading is not NaN. *)
Lemma Prim2SF_number (x : float) : is_nan x = false <-> Prim2SF x <> S754_nan.
Proof.
  unfold Prim2SF. destruct (is_nan x); split; try congruence; intros _.
  destruct (PrimFloat.is_zero x); [discriminate|].
  destruct (is_infinity x); [discriminate|].
  destruct (Z.frexp x) as [r e]. destruct (shr_fexp _ _ _ _ _) as [s e'].
  destruct (shr_m s); discriminate.
Qed.

Lemma Prim2SF_finite (x : float) : is_finite x = true -> Binary64.sf_finite (Prim2SF x).
Proof.
  unfold is_finite, Prim2SF. destruct (is_nan x); [discriminate|].
  destruct (PrimFloat.is_zero x); [intros _; exact I|].
  destruct (is_infinity x); [discriminate|]. intros _.
  destruct (Z.frexp x) as [r e]. destruct (shr_fexp _ _ _ _ _) as [s e'].
  destruct (shr_m s); exact I.
Qed.

Lemma Prim2SF_nonzero (x : float) :
  is_finite x = true -> PrimFloat.is_zero x = false -> Binary64.sf_nonzero (Prim2SF x).
Proof.
  intros Hf Hz. pose proof (Prim2SF_finite x Hf) as H.
  destruct (Prim2SF x) as [s|s| |s m e] eqn:E; try exact H; try exact I.
  unfold PrimFloat.is_zero in Hz. rewrite FloatAxioms.eqb_spec, E in Hz. discriminate.
Qed.

(** On numbers [<=] is the negation of the reversed [<]. *)
Lemma leb_negb_ltb (x y : float) :
  is_nan x = false -> is_nan y = false -> (x <=? y) = negb (y <? x).
Proof.
  rewrite !Prim2SF_number, FloatAxioms.leb_spec, FloatAxioms.ltb_spec. intros Hx Hy.
  unfold SFleb, SFltb. rewrite (SFcompare_antisym (Prim2SF x) (Prim2SF y)).
  destruct (SFcompare (Prim2SF x) (Prim2SF y)) as [[]|] eqn:E; try reflexivity.
  destruct (Prim2SF x) as [sx|sx| |sx mx ex], (Prim2SF y) as [sy|sy| |sy my ey];
    try congruence; discriminate.
Qed.

Lemma ltb_trans (x y z : float) : (x <? y) = true -> (y <? z) = true -> (x <? z) = true.
Proof. rewrite !FloatAxioms.ltb_spec. apply SFltb_trans. Qed.

Lemma ltb_asym (x y : float) : (x <? y) = true -> (y <? x) = false.
Proof. rewrite !FloatAxioms.ltb_spec. apply SFltb_asym. Qed.

(** The four comparisons of a label chain with thresholds
    [nhi < nlo < lo < hi]: above [hi] is above [lo], below [nhi] is
    below [nlo], and nothing is both above [lo] and below [nlo]. *)
Lemma threshold_order (x nhi nlo lo hi : float) :
  (nhi <? nlo) = true -> (nlo <? lo) = true -> (lo <? hi) = true ->
  ((hi <? x) = true -> (lo <? x) = true)
  /\ ((x <? nhi) = true -> (x <? nlo) = true)
  /\ ((lo <? x) = true -> (x <? nlo) = false).
Proof.
  intros H1 H2 H3. split; [|split].
  - intros H. exact (ltb_trans _ _ _ H3 H).
  - intros H. exact (ltb_trans _ _ _ H H1).
  - intros H. destruct (x <? nlo) eqn:E; [|reflexivity].
    pose proof (ltb_trans _ _ _ H E) as Hc.
    rewrite (ltb_asym _ _ H2) in Hc. discriminate Hc.
Qed.

(** The percent change of finite prices is a number when the current
    price is not zero: the difference and the quotient may overflow to
    an infinity, never to NaN. *)
Lemma pct_change_number (current predicted : float) :
  is_finite current = true -> is_finite predicted = true ->
  PrimFloat.is_zero current = false ->
  is_nan (Binary64.pct_change current predicted) = false.
Proof.
  intros Hc Hp Hz. apply Prim2SF_number. unfold Binary64.pct_change.
  rewrite FloatAxioms.mul_spec, FloatAxioms.div_spec, FloatAxioms.sub_spec.
  apply SF64mul_number; [|vm_compute; exact I].
  apply SF64div_number; [|apply Prim2SF_nonzero; assumption].
  apply SF64sub_number; apply Prim2SF_finite; assumption.
Qed.

Import RecommendationEngine.

(** The label that the chain of [analyze_price_trend] gives to a
    percent change, by the four comparisons alone. *)
Lemma trend_chain (kind : Binary64.scalar) (current predicted : float) :
  (kind = Binary64.builtin_float -> PrimFloat.is_zero current = false) ->
  exists t,
    Binary64.analyze_price_trend kind current predicted
      = Ok (t, Binary64.pct_change current predicted)
    /\ (t = strong_up <-> (1.0 <? Binary64.pct_change current predicted) = true)
    /\ (t = up <-> (0.2 <? Binary64.pct_change current predicted) = true
                   /\ (1.0 <? Binary64.pct_change current predicted) = false)
    /\ (t = strong_down <-> (Binary64.pct_change current predicted <? -1.0) = true)
    /\ (t = down <-> (Binary64.pct_change current predicted <? -0.2) = true
                     /\ (Binary64.pct_change current predicted <? -1.0) = false)
    /\ (t = stable <-> (0.2 <? Binary64.pct_change current predicted) = false
                       /\ (Binary64.pct_change current predicted <? -0.2) = false)
    /\ trend_in t [strong_up; up] = (0.2 <? Binary64.pct_change current predicted)
    /\ trend_in t [strong_down; down]
       = (Binary64.pct_change current predicted <? -0.2).
Proof.
  intros Hz.
  assert (E : Binary64.fdiv kind (predicted - current) current
              = Ok ((predicted - current) / current)).
  { unfold Binary64.fdiv. destruct kind; [|reflexivity]. rewrite Hz; reflexivity. }
  unfold Binary64.analyze_price_trend. rewrite E. cbn [PyNum.bind].
  fold (Binary64.pct_change current predicted).
  generalize (Binary64.pct_change current predicted). intros x.
  destruct (threshold_order x (-1.0) (-0.2) 0.2 1.0 eq_refl eq_refl eq_refl)
    as (Hup & Hdown & Hboth).
  unfold Binary64.fgt, Binary64.flt.
  destruct (1.0 <? x) eqn:A, (0.2 <? x) eqn:B, (x <? -1.0) eqn:C, (x <? -0.2) eqn:D;
    try discriminate (Hup eq_refl); try discriminate (Hdown eq_refl);
    try discriminate (Hboth eq_refl);
    eexists; (split; [reflexivity|]);
    repeat split; intros; try discriminate; try reflexivity;
    repeat match goal with H : _ /\ _ |- _ => destruct H end; try discriminate.
Qed.

Lemma strength_chain (s : float) :
  snd (Binary64.analyze_sentiment s) = s
  /\ (strength_in (fst (Binary64.analyze_sentiment s)) [very_positive; positive]
      = (0.1 <? s))
  /\ (strength_in (fst (Binary64.analyze_sentiment s)) [very_negative; negative]
      = (s <? -0.1)).
Proof.
  destruct (threshold_order s (-0.3) (-0.1) 0.1 0.3 eq_refl eq_refl eq_refl)
    as (Hup & Hdown & Hboth).
  unfold Binary64.analyze_sentiment, Binary64.fgt, Binary64.flt.
  destruct (0.3 <? s) eqn:A, (0.1 <? s) eqn:B, (s <? -0.3) eqn:C, (s <? -0.1) eqn:D;
    try discriminate (Hup eq_refl); try discriminate (Hdown eq_refl);
    try discriminate (Hboth eq_refl);
    repeat split; reflexivity.
Qed.

(** The record that [generate_recommendation] returns, its action by
    the two numbers. *)
Lemma generate_recommendation_chain (kind : Binary64.scalar)
    (current predicted sentiment : float) (news : string) :
  (kind = Binary64.builtin_float -> PrimFloat.is_zero current = false) ->
  exists r,
    Binary64.generate_recommendation kind current predicted sentiment news = Ok r
    /\ Binary64.price_change_pct r = Binary64.pct_change current predicted
    /\ Binary64.current_price r = current
    /\ Binary64.predicted_price r = predicted
    /\ Binary64.sentiment_score r = sentiment
    /\ Binary64.recommendation r
       = (if (0.2 <? Binary64.pct_change current predicted) && (0.1 <? sentiment)
          then BUY
          else if (Binary64.pct_change current predicted <? -0.2)
                  && (sentiment <? -0.1)
          then SELL else HOLD).
Proof.
  intros Hz.
  destruct (trend_chain kind current predicted Hz)
    as (t & Ht & _ & _ & _ & _ & _ & Hup & Hdown).
  destruct (strength_chain sentiment) as (Hv & Hpos & Hneg).
  unfold Binary64.generate_recommendation. rewrite Ht. cbn [PyNum.bind].
  destruct (Binary64.analyze_sentiment sentiment) as [st sv]. cbn [fst snd] in *.
  rewrite Hup, Hdown, Hpos, Hneg.
  destruct (0.2 <? Binary64.pct_change current predicted),
    (Binary64.pct_change current predicted <? -0.2),
    (0.1 <? sentiment), (sentiment <? -0.1);
    cbn [andb]; eexists; (split; [reflexivity|]); cbn; repeat split.
Qed.

End Binary64Facts.

(** Turn the boolean comparisons in the context into inequalities. *)
Ltac cmp_to_prop :=
repeat match goal with
  | H : Qltb _ _ = true |- _ => apply Qltb_lt in H
  | H : Qltb _ _ = false |- _ => apply Qltb_ge in H
  end.

(** Split on the next comparison that the goal tests. *)
Ltac case_cmp :=
match goal with
| |- context [Qltb ?a ?b] => destruct (Qltb a b) eqn:?
end.

(** ** Recommendation engine *)

Section EngineFacts.

Import RecommendationEngine.

Lemma analyze_price_trend_Fin (c p : Q) :
  ~ c == 0 ->
  exists t, analyze_price_trend (Fin c) (Fin p) = Ok (t, Fin (pct_change c p))
    /\ (t = strong_up <-> 1.0 < pct_change c p)
    /\ (t = up <-> 0.2 < pct_change c p /\ pct_change c p <= 1.0)
    /\ (t = strong_down <-> pct_change c p < -1.0)
    /\ (t = down <-> -1.0 <= pct_change c p /\ pct_change c p < -0.2)
    /\ (t = stable <-> -0.2 <= pct_change c p /\ pct_change c p <= 0.2).
Proof.
  intros Hc. unfold analyze_price_trend, fdiv, fsub, fmul, lift2, PyNum.bind.
  rewrite (Qeq_bool_false _ _ Hc). fold (pct_change c p).
  generalize (pct_change c p). intros x. unfold fgt, flt.
  repeat case_cmp; cmp_to_prop;
    eexists; (split; [reflexivity|]);
    repeat split; intros; try discriminate; try lra.
Qed.

Lemma analyze_sentiment_snd (s : pyfloat) : snd (analyze_sentiment s) = s.
Proof.
  unfold analyze_sentiment.
  repeat match goal with |- context [if ?b then _ else _] => destruct b end;
    reflexivity.
Qed.

Lemma analyze_sentiment_pair (s : pyfloat) :
  analyze_sentiment s = (fst (analyze_sentiment s), s).
Proof.
  rewrite <- (analyze_sentiment_snd s) at 3. apply surjective_pairing.
Qed.

Lemma analyze_sentiment_NaN : analyze_sentiment NaN = (neutral, NaN).
Proof. reflexivity. Qed.

(** What [generate_recommendation] returns once the trend analysis
    has returned. *)
Lemma generate_recommendation_fields (c p s : pyfloat) (news : string)
    (t : trend) (pct : pyfloat) :
  analyze_price_trend c p = Ok (t, pct) ->
  exists r, generate_recommendation c p s news = Ok r
    /\ price_trend r = t
    /\ price_change_pct r = pct
    /\ sentiment_strength r = fst (analyze_sentiment s)
    /\ sentiment_score r = s
    /\ confidence r = calculate_confidence t (fst (analyze_sentiment s)) pct s
    /\ recommendation r =
         (if trend_in t [strong_up; up]
             && strength_in (fst (analyze_sentiment s)) [very_positive; positive]
          then BUY
          else if trend_in t [strong_down; down]
                  && strength_in (fst (analyze_sentiment s)) [very_negative; negative]
          then SELL else HOLD).
Proof.
  intros Ht. unfold generate_recommendation. rewrite Ht. cbn [PyNum.bind].
  rewrite (analyze_sentiment_pair s).
  generalize (fst (analyze_sentiment s)). intros st. cbn [fst].
  destruct t, st; eexists; (split; [reflexivity|]); cbn; repeat split; reflexivity.
Qed.

(** The confidence of finite arguments is the capped sum. *)
Lemma calculate_confidence_Fin (t : trend) (st : strength) (pct s : Q) :
  exists x, calculate_confidence t st (Fin pct) (Fin s) = Fin x
    /\ x == spec_confidence (alignment_score t st) pct s.
Proof.
  unfold calculate_confidence, spec_confidence.
  cbn [fabs fdiv_const fmul lift2].
  destruct (pymin_Fin (Qabs pct / 2.0) 1.0) as (m1 & -> & E1).
  destruct (pymin_Fin (Qabs s * 2) 1.0) as (m2 & -> & E2).
  cbn [fmul fadd lift2].
  destruct (pymin_Fin (alignment_score t st + m1 * 0.2 + m2 * 0.2) 1.0)
    as (m3 & -> & E3).
  exists m3. split; [reflexivity|].
  rewrite E3, E1, E2. rewrite Q.min_comm.
  assert (H2 : (2.0 : Q) == 2) by reflexivity.
  assert (H1 : (1.0 : Q) == 1) by reflexivity.
  rewrite H2, H1. reflexivity.
Qed.

Lemma alignment_score_range (t : trend) (st : strength) :
  0.2 <= alignment_score t st /\ alignment_score t st <= 0.8.
Proof. destruct t, st; vm_compute; split; discriminate. Qed.

Lemma spec_confidence_range (base pct s : Q) :
  0.2 <= base -> 0.2 <= spec_confidence base pct s /\ spec_confidence base pct s <= 1.0.
Proof.
  intros Hb. unfold spec_confidence.
  destruct (Qmin_bounds (Qabs pct / 2)) as [A1 A2].
  { apply Qle_shift_div_l; [lra|]. rewrite Qmult_0_l. apply Qabs_nonneg. }
  destruct (Qmin_bounds (Qabs s * 2)) as [B1 B2].
  { apply Qmult_le_0_compat; [apply Qabs_nonneg | lra]. }
  split.
  - apply Q.min_glb; [lra|]. nra.
  - apply Q.le_min_l.
Qed.

End EngineFacts.

Section Binary64Claims.

Import RecommendationEngine.

#[local] Set Warnings "-inexact-float".
Open Scope float_scope.

(** C3.  For finite doubles with a non-zero current price, whichever
    the kind of scalar, [analyze_price_trend] returns the percent
    change [(predicted - current) / current * 100] as the interpreter
    computes it, which is a number, and labels it strong_up iff
    pct > 1.0, up iff 0.2 < pct <= 1.0, strong_down iff pct < -1.0,
    down iff -1.0 <= pct < -0.2, and stable iff -0.2 <= pct <= 0.2.
    The comparisons are those of binary64 between the computed percent
    change and the double of each literal. *)
Theorem analyze_price_trend_thresholds (kind : Binary64.scalar)
    (current predicted : float) :
  is_finite current = true -> is_finite predicted = true ->
  PrimFloat.is_zero current = false ->
  exists t pct,
    Binary64.analyze_price_trend kind current predicted = Ok (t, pct)
    /\ pct = (predicted - current) / current * 100
    /\ is_nan pct = false
    /\ (t = strong_up <-> (1.0 <? pct) = true)
    /\ (t = up <-> (0.2 <? pct) = true /\ (pct <=? 1.0) = true)
    /\ (t = strong_down <-> (pct <? -1.0) = true)
    /\ (t = down <-> (-1.0 <=? pct) = true /\ (pct <? -0.2) = true)
    /\ (t = stable <-> (-0.2 <=? pct) = true /\ (pct <=? 0.2) = true).
Proof.
  intros Hc Hp Hz.
  destruct (trend_chain kind current predicted (fun _ => Hz))
    as (t & Ht & H1 & H2 & H3 & H4 & H5 & _).
  pose proof (pct_change_number current predicted Hc Hp Hz) as Hn.
  exists t, (Binary64.pct_change current predicted).
  split; [exact Ht|]. split; [reflexivity|]. split; [exact Hn|].
  rewrite (leb_negb_ltb _ 1.0 Hn eq_refl), (leb_negb_ltb _ 0.2 Hn eq_refl),
    (leb_negb_ltb (-1.0) _ eq_refl Hn), (leb_negb_ltb (-0.2) _ eq_refl Hn).
  revert H1 H2 H3 H4 H5.
  generalize (Binary64.pct_change current predicted). intros x H1 H2 H3 H4 H5.
  split; [exact H1|].
  destruct (1.0 <? x), (0.2 <? x), (x <? -1.0), (x <? -0.2); cbn [negb];
    intuition (try discriminate; try congruence).
Qed.

Lemma analyze_price_trend_thresholds_witness :
  exists t pct,
    Binary64.analyze_price_trend Binary64.builtin_float 1800 1805 = Ok (t, pct)
    /\ pct = (1805 - 1800) / 1800 * 100
    /\ (t = up <-> (0.2 <? pct) = true /\ (pct <=? 1.0) = true).
Proof.
  destruct (analyze_price_trend_thresholds Binary64.builtin_float 1800 1805
              eq_refl eq_refl eq_refl) as (t & pct & Ht & Hpct & _ & _ & Hup & _).
  exists t, pct. split; [exact Ht|]. split; [exact Hpct | exact Hup].
Defined.

(** At a threshold the label follows the rounded percent change.  The
    exact quotient of (7.05, 7.0641) is just above 0.2 and that of
    (1007, 1017.07) is 1; the computed doubles are 0.2 and
    1.0000000000000051. *)
Example analyze_price_trend_rounded_down :
  Binary64.analyze_price_trend Binary64.builtin_float 7.05 7.0641 = Ok (stable, 0.2).
Proof. vm_compute. reflexivity. Qed.

Example analyze_price_trend_rounded_up :
  Binary64.analyze_price_trend Binary64.builtin_float 1007 1017.07
  = Ok (strong_up, 1.0000000000000051).
Proof. vm_compute. reflexivity. Qed.

End Binary64Claims.

Section EngineClaims.

Import RecommendationEngine.

(** C1.  For finite inputs with a non-zero current price,
    [generate_recommendation] returns, and its action follows the
    decision table on the two labels: BUY iff the trend is strong_up or
    up and the sentiment very_positive or positive, SELL iff the trend
    is strong_down or down and the sentiment very_negative or negative,
    HOLD for every other pair.  current=1800, predicted=1850,
    sentiment=0.5 gives BUY. *)
Theorem generate_recommendation_decision_table
    (current predicted sentiment : Q) (news : string) :
  ~ current == 0 ->
  (exists r t pct st,
     generate_recommendation (Fin current) (Fin predicted) (Fin sentiment) news = Ok r
     /\ analyze_price_trend (Fin current) (Fin predicted) = Ok (t, pct)
     /\ analyze_sentiment (Fin sentiment) = (st, Fin sentiment)
     /\ price_trend r = t /\ sentiment_strength r = st
     /\ (recommendation r = BUY <->
           (t = strong_up \/ t = up) /\ (st = very_positive \/ st = positive))
     /\ (recommendation r = SELL <->
           (t = strong_down \/ t = down) /\ (st = very_negative \/ st = negative))
     /\ (recommendation r = HOLD <->
           ~ ((t = strong_up \/ t = up) /\ (st = very_positive \/ st = positive))
           /\ ~ ((t = strong_down \/ t = down) /\ (st = very_negative \/ st = negative))))
  /\ (exists r,
        generate_recommendation (Fin 1800) (Fin 1850) (Fin 0.5) news = Ok r
        /\ recommendation r = BUY).
Proof.
  intros Hc. split.
  - destruct (analyze_price_trend_Fin current predicted Hc) as (t & Ht & _).
    destruct (generate_recommendation_fields _ _ (Fin sentiment) news _ _ Ht)
      as (r & Hr & Hpt & _ & Hst & _ & _ & Hrec).
    exists r, t, (Fin (pct_change current predicted)), (fst (analyze_sentiment (Fin sentiment))).
    split; [exact Hr|]. split; [exact Ht|].
    split; [apply analyze_sentiment_pair|].
    split; [exact Hpt|]. split; [exact Hst|].
    rewrite Hrec. clear.
    destruct t, (fst (analyze_sentiment (Fin sentiment))); cbn;
      repeat split; intros; try discriminate; try tauto; intuition discriminate.
  - assert (Ht : analyze_price_trend (Fin 1800) (Fin 1850)
                 = Ok (strong_up, Fin (pct_change 1800 1850))) by reflexivity.
    destruct (generate_recommendation_fields _ _ (Fin 0.5) news _ _ Ht)
      as (r & Hr & _ & _ & _ & _ & _ & Hrec).
    exists r. split; [exact Hr|]. rewrite Hrec. reflexivity.
Qed.

Lemma generate_recommendation_decision_table_witness :
  exists r,
    generate_recommendation (Fin 1800) (Fin 1850) (Fin 0.5) "Gold prices surge" = Ok r
    /\ recommendation r = BUY.
Proof.
  refine (proj2 (generate_recommendation_decision_table 1800 1850 0.5
                   "Gold prices surge" _)).
  intros H. discriminate H.
Defined.

(** C10.  For finite inputs with a non-zero current price the
    confidence is a finite number in the closed interval [0.2, 1.0]. *)
Theorem confidence_between_02_and_1
    (current predicted sentiment : Q) (news : string) :
  ~ current == 0 ->
  exists r x,
    generate_recommendation (Fin current) (Fin predicted) (Fin sentiment) news = Ok r
    /\ confidence r = Fin x
    /\ 0.2 <= x /\ x <= 1.0.
Proof.
  intros Hc.
  destruct (analyze_price_trend_Fin current predicted Hc) as (t & Ht & _).
  destruct (generate_recommendation_fields _ _ (Fin sentiment) news _ _ Ht)
    as (r & Hr & _ & _ & _ & _ & Hconf & _).
  destruct (calculate_confidence_Fin t (fst (analyze_sentiment (Fin sentiment)))
              (pct_change current predicted) sentiment) as (x & Hx & Ex).
  exists r, x. split; [exact Hr|]. split; [congruence|].
  rewrite Ex. apply spec_confidence_range, alignment_score_range.
Qed.

Lemma confidence_between_02_and_1_witness :
  exists r x,
    generate_recommendation (Fin 1800) (Fin 1780) (Fin 0.3) EmptyString = Ok r
    /\ confidence r = Fin x
    /\ 0.2 <= x /\ x <= 1.0.
Proof.
  apply (confidence_between_02_and_1 1800 1780 0.3 EmptyString).
  intros H. discriminate H.
Defined.

End EngineClaims.

Section EngineCorrections.

Import RecommendationEngine.

Lemma alignment_score_buckets (t : trend) (st : strength) :
  alignment_score t st = spec_alignment_base directed_trend strong_sentiment t st.
Proof. destruct t, st; reflexivity. Qed.

(** The pairs of the first three branches of the chain. *)
Lemma alignment_score_table (t : trend) (st : strength) :
  (alignment_score t st = 0.8 <->
     ((t = strong_up \/ t = up) /\ (st = very_positive \/ st = positive))
     \/ ((t = strong_down \/ t = down) /\ (st = very_negative \/ st = negative)))
  /\ (alignment_score t st = 0.6 <->
        (t <> stable /\ st = neutral)
        \/ (t = stable /\ (st = very_positive \/ st = very_negative)))
  /\ (alignment_score t st = 0.4 <-> t = stable /\ st = neutral).
Proof.
  destruct t, st; cbn; (split; [|split]); split; intros H;
    try discriminate H; try tauto; intuition (discriminate || congruence).
Qed.

(** The pairs that the chain of [calculate_confidence] leaves to its
    last branch. *)
Lemma alignment_score_residual (t : trend) (st : strength) :
  alignment_score t st = 0.2 <->
    ((t = strong_up \/ t = up) /\ (st = very_negative \/ st = negative))
    \/ ((t = strong_down \/ t = down) /\ (st = very_positive \/ st = positive))
    \/ (t = stable /\ (st = positive \/ st = negative)).
Proof.
  destruct t, st; cbn; split; intros H; try discriminate H; try tauto;
    intuition discriminate.
Qed.

(** C2, as amended.  For finite inputs with a non-zero current price
    the confidence equals min(1, base + min(|pct|/2, 1)*0.2 +
    min(|sentiment|*2, 1)*0.2), where base is 0.8 when trend and
    sentiment agree, 0.6 when the trend has a direction and the
    sentiment is neutral or the trend is stable and the sentiment is
    very_positive or very_negative, 0.4 when the trend is stable and
    the sentiment neutral, and 0.2 for every other pair. *)
Theorem confidence_formula (current predicted sentiment : Q) (news : string) :
  ~ current == 0 ->
  exists r x base,
    generate_recommendation (Fin current) (Fin predicted) (Fin sentiment) news = Ok r
    /\ confidence r = Fin x
    /\ x == spec_confidence base (pct_change current predicted) sentiment
    /\ base = spec_alignment_base directed_trend strong_sentiment
                (price_trend r) (sentiment_strength r)
    /\ (base = 0.8 <->
          ((price_trend r = strong_up \/ price_trend r = up)
           /\ (sentiment_strength r = very_positive \/ sentiment_strength r = positive))
          \/ ((price_trend r = strong_down \/ price_trend r = down)
              /\ (sentiment_strength r = very_negative
                  \/ sentiment_strength r = negative)))
    /\ (base = 0.6 <->
          (price_trend r <> stable /\ sentiment_strength r = neutral)
          \/ (price_trend r = stable
              /\ (sentiment_strength r = very_positive
                  \/ sentiment_strength r = very_negative)))
    /\ (base = 0.4 <-> price_trend r = stable /\ sentiment_strength r = neutral)
    /\ (base = 0.2 <->
          ((price_trend r = strong_up \/ price_trend r = up)
           /\ (sentiment_strength r = very_negative \/ sentiment_strength r = negative))
          \/ ((price_trend r = strong_down \/ price_trend r = down)
              /\ (sentiment_strength r = very_positive
                  \/ sentiment_strength r = positive))
          \/ (price_trend r = stable
              /\ (sentiment_strength r = positive \/ sentiment_strength r = negative))).
Proof.
  intros Hc.
  destruct (analyze_price_trend_Fin current predicted Hc) as (t & Ht & _).
  destruct (generate_recommendation_fields _ _ (Fin sentiment) news _ _ Ht)
    as (r & Hr & Hpt & _ & Hst & _ & Hconf & _).
  destruct (calculate_confidence_Fin t (fst (analyze_sentiment (Fin sentiment)))
              (pct_change current predicted) sentiment) as (x & Hx & Ex).
  exists r, x, (alignment_score (price_trend r) (sentiment_strength r)).
  split; [exact Hr|]. split; [congruence|].
  rewrite Hpt, Hst. split; [exact Ex|].
  split; [apply alignment_score_buckets|].
  destruct (alignment_score_table t (fst (analyze_sentiment (Fin sentiment))))
    as (H8 & H6 & H4).
  split; [exact H8|]. split; [exact H6|]. split; [exact H4|].
  apply alignment_score_residual.
Qed.

Lemma confidence_formula_witness :
  exists r x,
    generate_recommendation (Fin 1800) (Fin 1805) (Fin 0.05) EmptyString = Ok r
    /\ confidence r = Fin x
    /\ x == spec_confidence 0.6 (pct_change 1800 1805) 0.05.
Proof.
  destruct (confidence_formula 1800 1805 0.05 EmptyString) as (r & x & base & Hr & Hx & E & Hb & _).
  - intros H. discriminate H.
  - exists r, x. split; [exact Hr|]. split; [exact Hx|].
    assert (Hb' : base = 0.6).
    { rewrite Hb. clear -Hr. vm_compute in Hr. injection Hr as <-. reflexivity. }
    rewrite <- Hb'. exact E.
Defined.

(** C2 as stated fails.  With "decisive" read as "having a direction"
    on both sides, a stable trend with positive sentiment (1800, 1800,
    0.2) would have base 0.6, and the code computes 0.28 from base 0.2.
    With "decisive" read as "strong" on both sides, an up trend with
    neutral sentiment (1800, 1810, 0) would have base 0.2, and the code
    uses base 0.6. *)
Lemma confidence_formula_counterexample :
  (exists r x,
     generate_recommendation (Fin 1800) (Fin 1800) (Fin 0.2) EmptyString = Ok r
     /\ price_trend r = stable /\ sentiment_strength r = positive
     /\ confidence r = Fin x /\ x == 0.28
     /\ ~ x == spec_confidence
                (spec_alignment_base directed_trend directed_sentiment stable positive)
                (pct_change 1800 1800) 0.2)
  /\ (exists r x,
        generate_recommendation (Fin 1800) (Fin 1810) (Fin 0) EmptyString = Ok r
        /\ price_trend r = up /\ sentiment_strength r = neutral
        /\ confidence r = Fin x
        /\ ~ x == spec_confidence
                   (spec_alignment_base strong_trend strong_sentiment up neutral)
                   (pct_change 1800 1810) 0).
Proof.
  split.
  - eexists. eexists. split; [vm_compute; reflexivity|]. cbn [price_trend sentiment_strength confidence].
    repeat split. intros H. vm_compute in H. discriminate H.
  - eexists. eexists. split; [vm_compute; reflexivity|]. cbn [price_trend sentiment_strength confidence].
    repeat split. intros H. vm_compute in H. discriminate H.
Qed.

Lemma calculate_confidence_NaN_pct (t : trend) (st : strength) (s : pyfloat) :
  calculate_confidence t st NaN s = NaN.
Proof.
  unfold calculate_confidence. cbn [fabs fdiv_const]. rewrite pymin_NaN_l.
  cbn [fmul fadd lift2]. rewrite ?pymin_NaN_l. reflexivity.
Qed.

Lemma calculate_confidence_NaN_sentiment (t : trend) (st : strength) (pct : pyfloat) :
  calculate_confidence t st pct NaN = NaN.
Proof.
  unfold calculate_confidence. cbn [fabs fmul lift2]. rewrite pymin_NaN_l.
  cbn [fmul lift2].
  assert (E : forall a, fadd a NaN = NaN) by (intros [|]; reflexivity).
  rewrite E, ?pymin_NaN_l. reflexivity.
Qed.

Lemma analyze_price_trend_NaN (c p : pyfloat) :
  (forall q, c = Fin q -> ~ q == 0) ->
  c = NaN \/ p = NaN ->
  analyze_price_trend c p = Ok (stable, NaN).
Proof.
  intros Hc H. unfold analyze_price_trend, fdiv.
  destruct c as [c|].
  - rewrite (Qeq_bool_false _ _ (Hc c eq_refl)).
    destruct H as [H|H]; [discriminate H|]. subst p. reflexivity.
  - destruct p; reflexivity.
Qed.

Lemma analyze_price_trend_returns (c p : pyfloat) :
  (forall q, c = Fin q -> ~ q == 0) ->
  exists t pct, analyze_price_trend c p = Ok (t, pct).
Proof.
  intros Hc. destruct c as [c|].
  - destruct p as [p|].
    + destruct (analyze_price_trend_Fin c p (Hc c eq_refl)) as (t & Ht & _). eauto.
    + exists stable, NaN. apply analyze_price_trend_NaN; auto.
  - exists stable, NaN. apply analyze_price_trend_NaN; auto.
Qed.

(** C8, as amended.  No input check exists.  When the current price is
    not zero and one of the three numbers is NaN,
    [generate_recommendation] raises nothing: it returns a HOLD
    recommendation whose confidence is NaN.  An argument that is not a
    number (a string, None) makes the call raise Python's TypeError. *)
Theorem generate_recommendation_invalid_input
    (current predicted sentiment : pyval) (news : string) :
  is_zero current = false ->
  (forall c p s,
     current = VNum c -> predicted = VNum p -> sentiment = VNum s ->
     c = NaN \/ p = NaN \/ s = NaN ->
     exists r,
       generate_recommendation_dyn current predicted sentiment news = Ok r
       /\ generate_recommendation c p s news = Ok r
       /\ recommendation r = HOLD /\ confidence r = NaN)
  /\ (is_number current && is_number predicted && is_number sentiment = false ->
      generate_recommendation_dyn current predicted sentiment news = Raise TypeError).
Proof.
  intros Hz. split.
  - intros c p s -> -> -> Hnan. cbn [generate_recommendation_dyn].
    assert (Hc : forall q, c = Fin q -> ~ q == 0).
    { intros q -> E. cbn in Hz. apply Qeq_bool_iff in E. congruence. }
    destruct (analyze_price_trend_returns c p Hc) as (t & pct & Ht).
    destruct (generate_recommendation_fields c p s news t pct Ht)
      as (r & Hr & _ & _ & _ & _ & Hconf & Hrec).
    exists r. split; [exact Hr|]. split; [exact Hr|].
    destruct Hnan as [Hn | [Hn | Hn]].
    + rewrite (analyze_price_trend_NaN c p Hc (or_introl Hn)) in Ht.
      injection Ht as <- <-. split.
      * rewrite Hrec. reflexivity.
      * rewrite Hconf. apply calculate_confidence_NaN_pct.
    + rewrite (analyze_price_trend_NaN c p Hc (or_intror Hn)) in Ht.
      injection Ht as <- <-. split.
      * rewrite Hrec. reflexivity.
      * rewrite Hconf. apply calculate_confidence_NaN_pct.
    + subst s. split.
      * rewrite Hrec, analyze_sentiment_NaN. cbn [fst].
        destruct t; reflexivity.
      * rewrite Hconf. apply calculate_confidence_NaN_sentiment.
  - intros Hn. unfold generate_recommendation_dyn.
    destruct current as [c| |]; try reflexivity.
    destruct predicted as [p| |]; try reflexivity.
    destruct sentiment as [s| |]; [discriminate Hn| |].
    + assert (Hc : forall q, c = Fin q -> ~ q == 0).
      { intros q -> E. cbn in Hz. apply Qeq_bool_iff in E. congruence. }
      destruct (analyze_price_trend_returns c p Hc) as (t & pct & ->). reflexivity.
    + assert (Hc : forall q, c = Fin q -> ~ q == 0).
      { intros q -> E. cbn in Hz. apply Qeq_bool_iff in E. congruence. }
      destruct (analyze_price_trend_returns c p Hc) as (t & pct & ->). reflexivity.
Qed.

Lemma generate_recommendation_invalid_input_witness :
  exists r,
    generate_recommendation_dyn (VNum (Fin 1800)) (VNum NaN) (VNum (Fin 0.5)) EmptyString = Ok r
    /\ generate_recommendation (Fin 1800) NaN (Fin 0.5) EmptyString = Ok r
    /\ recommendation r = HOLD /\ confidence r = NaN.
Proof.
  refine (proj1 (generate_recommendation_invalid_input
                   (VNum (Fin 1800)) (VNum NaN) (VNum (Fin 0.5)) EmptyString _)
            (Fin 1800) NaN (Fin 0.5) _ _ _ _);
    [reflexivity | reflexivity | reflexivity | reflexivity |].
  right. left. reflexivity.
Defined.

(** C8 as stated fails: with a NaN sentiment the call returns a
    recommendation that carries NaN, and raises nothing. *)
Lemma generate_recommendation_invalid_input_counterexample :
  exists r,
    generate_recommendation (Fin 1800) (Fin 1850) NaN EmptyString = Ok r
    /\ recommendation r = HOLD
    /\ sentiment_score r = NaN
    /\ confidence r = NaN.
Proof.
  eexists. split; [vm_compute; reflexivity|]. repeat split.
Qed.

End EngineCorrections.

(** ** Keyword sentiment *)

Section SentimentClaims.

Import RecommendationEngine RealTimeSentiment.

Lemma int_div_bounds (a b : Z) :
  (0 < b)%Z -> (- b <= a)%Z -> (a <= b)%Z ->
  -1 <= int_div a b /\ int_div a b <= 1.
Proof.
  intros Hb Hlo Hhi. unfold int_div.
  assert (Hb' : 0 < inject_Z b) by (unfold Qlt; cbn; lia).
  assert (H1 : - inject_Z b <= inject_Z a).
  { rewrite <- inject_Z_opp, <- Zle_Qle. exact Hlo. }
  assert (H2 : inject_Z a <= inject_Z b).
  { rewrite <- Zle_Qle. exact Hhi. }
  split.
  - apply Qle_shift_div_l; [exact Hb' | lra].
  - apply Qle_shift_div_r; [exact Hb' | lra].
Qed.

(** C4.  With p, n and u the numbers of positive, negative and neutral
    keywords that occur in the lower-cased text: when p + n + u = 0 the
    scorer returns polarity 0.0 and label neutral; otherwise the
    polarity is (p - n) / (p + n + u); in both cases it lies in
    [-1, 1]. *)
Theorem analyze_sentiment_polarity (self : RealTimeSentimentAnalyzer) (text : string) :
  let p := count_hits (positive_keywords self) (PyStr.lower text) in
  let n := count_hits (negative_keywords self) (PyStr.lower text) in
  let u := count_hits (neutral_keywords self) (PyStr.lower text) in
  ((p + n + u = 0)%nat -> analyze_sentiment self text = (Fin 0.0, neutral))
  /\ ((p + n + u <> 0)%nat ->
      fst (analyze_sentiment self text)
      = Fin (inject_Z (Z.of_nat p - Z.of_nat n) / inject_Z (Z.of_nat (p + n + u))))
  /\ (exists q, fst (analyze_sentiment self text) = Fin q /\ -1 <= q /\ q <= 1).
Proof.
  intros p n u. unfold analyze_sentiment. fold p n u.
  destruct (Nat.eqb_spec (p + n + u) 0) as [E|E].
  - split; [reflexivity|]. split; [intros H; contradiction|].
    exists 0.0. split; [reflexivity|]. split; discriminate.
  - split; [intros H; contradiction|]. split; [reflexivity|].
    cbn [fst]. eexists. split; [reflexivity|].
    apply int_div_bounds; lia.
Qed.

Lemma analyze_sentiment_polarity_witness :
  analyze_sentiment RealTimeSentiment.init "Central bank buying" = (Fin 0.0, neutral)
  /\ fst (analyze_sentiment RealTimeSentiment.init
            "Gold prices surge as inflation concerns mount")
     = Fin (inject_Z (2 - 0) / inject_Z 3).
Proof.
  split.
  - apply (proj1 (analyze_sentiment_polarity RealTimeSentiment.init
                    "Central bank buying")).
    vm_compute. reflexivity.
  - apply (proj1 (proj2 (analyze_sentiment_polarity RealTimeSentiment.init
                           "Gold prices surge as inflation concerns mount"))).
    vm_compute. discriminate.
Defined.

(** A headline without any keyword. *)
Example analyze_sentiment_no_hits :
  analyze_sentiment RealTimeSentiment.init "Central bank buying" = (Fin 0.0, neutral).
Proof. vm_compute. reflexivity. Qed.

(** Keywords are counted as substrings: "inflation" also holds the
    neutral keyword "flat". *)
Example analyze_sentiment_surge :
  analyze_sentiment RealTimeSentiment.init "Gold prices surge as inflation concerns mount"
  = (Fin (2 # 3), very_positive).
Proof. vm_compute. reflexivity. Qed.

End SentimentClaims.

(** ** Preprocessor *)

Section PreprocessFacts.

Import DataPreprocessing.

Lemma insert_by_date_perm {A : Type} (key : A -> Z) (x : A) (frame : list A) :
  insert_by_date key x frame ≡ₚ x :: frame.
Proof.
  induction frame as [|y frame IH]; cbn [insert_by_date]; [reflexivity|].
  destruct (key x <=? key y)%Z; [reflexivity|].
  rewrite IH. apply Permutation_swap.
Qed.

Lemma sort_values_perm {A : Type} (key : A -> Z) (frame : list A) :
  sort_values key frame ≡ₚ frame.
Proof.
  induction frame as [|x frame IH]; [reflexivity|].
  cbn [sort_values fold_right]. fold (sort_values key frame).
  rewrite insert_by_date_perm, IH. reflexivity.
Qed.

Lemma insert_by_date_sorted {A : Type} (key : A -> Z) (x : A) (frame : list A) :
  Sorted Z.le (map key frame) -> Sorted Z.le (map key (insert_by_date key x frame)).
Proof.
  induction frame as [|y frame IH]; cbn [insert_by_date map]; intros H.
  - repeat constructor.
  - destruct (Z.leb_spec (key x) (key y)) as [Hle|Hgt]; cbn [map].
    + constructor; [exact H|]. constructor. exact Hle.
    + apply Sorted_inv in H as [Hs Hd]. constructor; [apply IH, Hs|].
      destruct frame as [|z frame]; cbn [insert_by_date map].
      * constructor. lia.
      * destruct (key x <=? key z)%Z; cbn [map]; constructor; [lia|].
        apply HdRel_inv in Hd. exact Hd.
Qed.

Lemma sort_values_sorted {A : Type} (key : A -> Z) (frame : list A) :
  Sorted Z.le (map key (sort_values key frame)).
Proof.
  induction frame as [|x frame IH]; [constructor|].
  cbn [sort_values fold_right]. apply insert_by_date_sorted, IH.
Qed.

(** Sorting is stable: the rows of one date come out in the order they
    went in. *)
Lemma insert_by_date_group {A : Type} (key : A -> Z) (d : Z) (x : A) (frame : list A) :
  List.filter (fun r => bool_decide (key r = d)) (insert_by_date key x frame)
  = List.filter (fun r => bool_decide (key r = d)) (x :: frame).
Proof.
  induction frame as [|y frame IH]; cbn [insert_by_date]; [reflexivity|].
  destruct (Z.leb_spec (key x) (key y)) as [Hle|Hgt]; [reflexivity|].
  cbn [List.filter] in *. rewrite IH.
  repeat case_bool_decide; try reflexivity. lia.
Qed.

Lemma sort_values_group {A : Type} (key : A -> Z) (d : Z) (frame : list A) :
  List.filter (fun r => bool_decide (key r = d)) (sort_values key frame)
  = List.filter (fun r => bool_decide (key r = d)) frame.
Proof.
  induction frame as [|x frame IH]; [reflexivity|].
  cbn [sort_values fold_right]. fold (sort_values key frame).
  rewrite insert_by_date_group. cbn [List.filter]. rewrite IH. reflexivity.
Qed.

Lemma In_sort_values {A : Type} (key : A -> Z) (frame : list A) (x : A) :
  In x (sort_values key frame) <-> In x frame.
Proof.
  split; apply Permutation_in; [|symmetry]; apply sort_values_perm.
Qed.

Lemma aggregate_dates (sentiment_data : list sentiment_row) :
  map d_Date (aggregate_sentiment_by_date sentiment_data)
  = sort_values id (remove_dups (map s_Date sentiment_data)).
Proof.
  unfold aggregate_sentiment_by_date. rewrite map_map. cbn [aggregate_group d_Date].
  apply map_id.
Qed.

Lemma aggregate_dates_NoDup (sentiment_data : list sentiment_row) :
  NoDup (map d_Date (aggregate_sentiment_by_date sentiment_data)).
Proof.
  rewrite aggregate_dates, sort_values_perm. apply NoDup_remove_dups.
Qed.

Lemma aggregate_dates_In (sentiment_data : list sentiment_row) (d : Z) :
  In d (map d_Date (aggregate_sentiment_by_date sentiment_data))
  <-> In d (map s_Date sentiment_data).
Proof.
  rewrite aggregate_dates, In_sort_values, <- !list_elem_of_In.
  apply elem_of_remove_dups.
Qed.

Lemma filter_date_absent (agg : list daily_sentiment) (k : Z) :
  ~ In k (map d_Date agg) ->
  List.filter (fun d => bool_decide (d_Date d = k)) agg = [].
Proof.
  induction agg as [|a agg IH]; [reflexivity|].
  cbn [map In List.filter]. intros H.
  rewrite bool_decide_eq_false_2 by tauto. apply IH. tauto.
Qed.

Lemma filter_date_NoDup (agg : list daily_sentiment) (k : Z) :
  NoDup (map d_Date agg) ->
  (length (List.filter (fun d => bool_decide (d_Date d = k)) agg) <= 1)%nat.
Proof.
  induction agg as [|a agg IH]; cbn [map List.filter]; [cbn; lia|].
  intros H. apply NoDup_cons in H as [Ha H].
  case_bool_decide as E.
  - rewrite filter_date_absent; [cbn; lia|].
    rewrite <- E, <- list_elem_of_In. exact Ha.
  - apply IH, H.
Qed.

Lemma join_row_fields (agg : list daily_sentiment) (g : gold_row) (j : joined_row) :
  In j (join_row agg g) -> j_Date j = g_Date g /\ j_SF_Price j = g_SF_Price g.
Proof.
  unfold join_row.
  destruct (List.filter _ agg) as [|m ms].
  - intros [<-|[]]. split; reflexivity.
  - intros H. apply in_map_iff in H as (d & <- & _). split; reflexivity.
Qed.

Lemma join_row_single (agg : list daily_sentiment) (g : gold_row) :
  NoDup (map d_Date agg) ->
  exists j, join_row agg g = [j]
    /\ j_Date j = g_Date g /\ j_SF_Price j = g_SF_Price g.
Proof.
  intros H. pose proof (filter_date_NoDup agg (g_Date g) H) as Hlen.
  pose proof (join_row_fields agg g) as Hf.
  unfold join_row in *.
  destruct (List.filter _ agg) as [|m [|m' ms]]; cbn in Hlen; try lia.
  - eexists. split; [reflexivity|]. apply Hf. left. reflexivity.
  - eexists. split; [reflexivity|]. apply Hf. left. reflexivity.
Qed.

Lemma join_row_unmatched (agg : list daily_sentiment) (g : gold_row) (j : joined_row) :
  ~ In (g_Date g) (map d_Date agg) ->
  In j (join_row agg g) ->
  j_Sentiment_score j = None /\ j_News j = None.
Proof.
  intros H. unfold join_row. rewrite (filter_date_absent agg _ H).
  intros [<-|[]]. split; reflexivity.
Qed.

Lemma merge_left_prices (gold : list gold_row) (agg : list daily_sentiment) :
  NoDup (map d_Date agg) ->
  map (fun r => (Date r, SF_Price r)) (map fillna (merge_left gold agg))
  = map (fun g => (g_Date g, g_SF_Price g)) gold.
Proof.
  intros H. unfold merge_left.
  induction gold as [|g gold IH]; [reflexivity|].
  cbn [flat_map]. rewrite !map_app, IH.
  destruct (join_row_single agg g H) as (j & -> & Hd & Hp).
  cbn. rewrite Hd, Hp. reflexivity.
Qed.

Lemma merged_unmatched (gold : list gold_row) (agg : list daily_sentiment) (r : row) :
  In r (map fillna (merge_left gold agg)) ->
  ~ In (Date r) (map d_Date agg) ->
  Sentiment_score r = 0 /\ News r = EmptyString.
Proof.
  intros Hin Hno. apply in_map_iff in Hin as (j & <- & Hj).
  unfold merge_left in Hj. apply in_flat_map in Hj as (g & _ & Hj).
  destruct (join_row_fields agg g j Hj) as [Hd _].
  cbn [fillna Date] in Hno. rewrite Hd in Hno.
  destruct (join_row_unmatched agg g j Hno Hj) as [Hs Hn].
  cbn [fillna Sentiment_score News]. rewrite Hs, Hn. split; reflexivity.
Qed.

(** The merged frame carries the cleaned price rows, whatever the
    sentiment file. *)
Lemma preprocess_all_prices (gold_file : list gold_raw)
    (sentiment_file : list sentiment_raw) :
  map (fun r => (Date r, SF_Price r)) (preprocess_all gold_file sentiment_file)
  ≡ₚ map (fun g => (g_Date g, g_SF_Price g)) (valid_price_rows gold_file).
Proof.
  unfold preprocess_all, merge_data, clean_gold_data, valid_price_rows.
  rewrite (Permutation_map _ (sort_values_perm Date _)).
  rewrite merge_left_prices by apply aggregate_dates_NoDup.
  apply Permutation_map, sort_values_perm.
Qed.

Lemma preprocess_all_dates (gold_file : list gold_raw)
    (sentiment_file : list sentiment_raw) :
  map Date (preprocess_all gold_file sentiment_file)
  ≡ₚ map g_Date (valid_price_rows gold_file).
Proof.
  pose proof (Permutation_map fst (preprocess_all_prices gold_file sentiment_file)) as H.
  rewrite !map_map in H. exact H.
Qed.

End PreprocessFacts.

Section PreprocessClaims.

Import DataPreprocessing.

(** C5, as amended.  The merged frame has exactly one row per valid
    (non-missing-price) price row, carrying the date and price of that
    row; it is sorted ascending by date; every row whose date has no
    usable sentiment row has sentiment score 0 and an empty headline
    string; and its dates are free of duplicates when those of the
    valid price rows are. *)
Theorem preprocess_all_rows (gold_file : list gold_raw)
    (sentiment_file : list sentiment_raw) :
  let merged := preprocess_all gold_file sentiment_file in
  let valid := valid_price_rows gold_file in
  length merged = length valid
  /\ map (fun r => (Date r, SF_Price r)) merged
     ≡ₚ map (fun g => (g_Date g, g_SF_Price g)) valid
  /\ Sorted Z.le (map Date merged)
  /\ (forall r, In r merged ->
        ~ In (Date r) (sentiment_dates sentiment_file) ->
        Sentiment_score r = 0 /\ News r = EmptyString)
  /\ (NoDup (map g_Date valid) -> NoDup (map Date merged)).
Proof.
  intros merged valid. subst merged valid.
  split.
  { rewrite <- (length_map (fun r => (Date r, SF_Price r))),
      <- (length_map (fun g => (g_Date g, g_SF_Price g))).
    apply Permutation_length, preprocess_all_prices. }
  split; [apply preprocess_all_prices|].
  split; [apply sort_values_sorted|].
  split.
  - intros r Hin Hno. unfold preprocess_all, merge_data in Hin.
    apply In_sort_values in Hin.
    apply (merged_unmatched _ _ r Hin).
    rewrite aggregate_dates_In. intros H. apply Hno.
    unfold sentiment_dates, clean_sentiment_data in *.
    apply in_map_iff in H as (x & <- & Hx). apply In_sort_values in Hx.
    apply in_map. exact Hx.
  - intros H. rewrite preprocess_all_dates. exact H.
Qed.

Example preprocess_all_three_rows :
  preprocess_all three_price_rows two_headlines
  = [ {| Date := 1; SF_Price := 1800; Sentiment_score := 1; News := "gold up" |};
      {| Date := 3; SF_Price := 1812; Sentiment_score := 0; News := EmptyString |} ].
Proof. vm_compute. reflexivity. Qed.

Lemma preprocess_all_rows_witness :
  length (preprocess_all three_price_rows two_headlines) = 2%nat
  /\ NoDup (map Date (preprocess_all three_price_rows two_headlines)).
Proof.
  destruct (preprocess_all_rows three_price_rows two_headlines)
    as (H1 & _ & _ & _ & H5).
  split.
  - rewrite H1. reflexivity.
  - apply H5. compute_done.
Defined.

(** C5 as stated fails: no step removes a repeated price date.  Two
    price rows of the same date give two merged rows of that date, for
    one distinct date. *)
Lemma preprocess_all_rows_counterexample :
  length (preprocess_all repeated_date_file []) = 2%nat
  /\ length (remove_dups (map g_Date (valid_price_rows repeated_date_file))) = 1%nat
  /\ map Date (preprocess_all repeated_date_file []) = [1%Z; 1%Z]
  /\ ~ NoDup (map Date (preprocess_all repeated_date_file [])).
Proof.
  assert (E : map Date (preprocess_all repeated_date_file []) = [1%Z; 1%Z])
    by (vm_compute; reflexivity).
  split; [vm_compute; reflexivity|]. split; [vm_compute; reflexivity|].
  split; [exact E|]. rewrite E. intros H.
  apply NoDup_cons in H as [H _]. apply H. left.
Qed.

End PreprocessClaims.

(** ** Forecaster *)

Section PredictorFacts.

Import DataPreprocessing GoldPredictor.

Lemma length_tail {A : Type} (n : nat) (l : list A) :
  length (tail n l) = Nat.min n (length l).
Proof. unfold tail. rewrite length_drop. lia. Qed.

Lemma transform_fitted (sc : MinMaxScaler) (column : list Q) :
  is_Some (data_bounds sc) -> column <> [] ->
  exists l, transform sc column = Ok l /\ length l = length column.
Proof.
  intros [b Hb] Hne. unfold transform. rewrite Hb.
  destruct column as [|x xs]; [contradiction|].
  eexists. split; [reflexivity|]. apply length_map.
Qed.

Lemma transform_length (sc : MinMaxScaler) (column l : list Q) :
  transform sc column = Ok l -> length l = length column.
Proof.
  unfold transform. destruct (data_bounds sc); [|discriminate].
  destruct column; [discriminate|]. intros [= <-]. cbn [length].
  rewrite length_map. reflexivity.
Qed.

Lemma fit_bounds (column : list Q) (sc : MinMaxScaler) :
  fit column = Ok sc -> is_Some (data_bounds sc).
Proof.
  unfold fit. destruct column; [discriminate|]. intros [= <-]. cbn. eauto.
Qed.

Lemma transform_empty (sc : MinMaxScaler) :
  is_Some (data_bounds sc) ->
  transform sc [] = Raise (ValueError "Found array with 0 sample(s)").
Proof. intros [b Hb]. unfold transform. rewrite Hb. reflexivity. Qed.

Lemma tail_nonempty {A : Type} (n : nat) (l : list A) :
  (1 <= n)%nat -> l <> [] -> tail n l <> [].
Proof.
  intros Hn Hl E. apply (f_equal length) in E. rewrite length_tail in E.
  destruct l; [contradiction|]. cbn in E. lia.
Qed.

Lemma predict_next_day_untrained (self : GoldPricePredictor) (data : list row) :
  is_trained self = false ->
  predict_next_day self data = Raise (ValueError not_trained_message).
Proof. intros H. unfold predict_next_day. rewrite H. reflexivity. Qed.

(** The outcome of a prediction by a predictor whose flag is set and
    whose scalers and regressor are fitted, by the number of features
    that the regressor expects. *)
Lemma predict_next_day_features (self : GoldPricePredictor) (data : list row)
    (n : nat) (f : list Q -> Q) :
  is_trained self = true ->
  model self = ObjRegressor (Fitted n f) ->
  is_Some (data_bounds (scaler_price self)) ->
  is_Some (data_bounds (scaler_sentiment self)) ->
  (1 <= sequence_length self)%nat ->
  (data = [] ->
     predict_next_day self data = Raise (ValueError "Found array with 0 sample(s)"))
  /\ (data <> [] -> (2 * Nat.min (sequence_length self) (length data))%nat = n ->
      exists v, predict_next_day self data = Ok v)
  /\ (data <> [] -> (2 * Nat.min (sequence_length self) (length data))%nat <> n ->
      exists msg, predict_next_day self data = Raise (ValueError msg)).
Proof.
  intros Ht Hm Hp Hs Hw. unfold predict_next_day. rewrite Ht, Hm. cbn [negb].
  split.
  { intros ->. cbn [map]. unfold tail. cbn [length drop].
    rewrite Nat.sub_0_l, drop_0.
    rewrite (transform_empty _ Hp). reflexivity. }
  assert (Hcommon : data <> [] ->
    exists ps ss, transform (scaler_price self)
                    (tail (sequence_length self) (map SF_Price data)) = Ok ps
      /\ transform (scaler_sentiment self)
           (tail (sequence_length self) (map Sentiment_score data)) = Ok ss
      /\ length (ps ++ ss) = (2 * Nat.min (sequence_length self) (length data))%nat
      /\ length (ps ++ ss) <> 0%nat).
  { intros Hne.
    destruct (transform_fitted (scaler_price self)
                (tail (sequence_length self) (map SF_Price data)) Hp)
      as (ps & Eps & Lps).
    { apply tail_nonempty; [exact Hw|]. destruct data; [contradiction|discriminate]. }
    destruct (transform_fitted (scaler_sentiment self)
                (tail (sequence_length self) (map Sentiment_score data)) Hs)
      as (ss & Ess & Lss).
    { apply tail_nonempty; [exact Hw|]. destruct data; [contradiction|discriminate]. }
    exists ps, ss. split; [exact Eps|]. split; [exact Ess|].
    rewrite length_app, Lps, Lss, !length_tail, !length_map.
    destruct data; [contradiction|]. cbn [length]. lia. }
  split.
  - intros Hne Hn. destruct (Hcommon Hne) as (ps & ss & -> & -> & Hlen & Hnz).
    cbn [PyNum.bind]. unfold predict_row.
    rewrite (proj2 (Nat.eqb_neq _ _) Hnz).
    rewrite Hlen, Hn, Nat.eqb_refl. cbn [PyNum.bind].
    destruct Hp as [b Hb]. unfold inverse_transform. rewrite Hb. eauto.
  - intros Hne Hn. destruct (Hcommon Hne) as (ps & ss & -> & -> & Hlen & Hnz).
    cbn [PyNum.bind]. unfold predict_row.
    rewrite (proj2 (Nat.eqb_neq _ _) Hnz).
    rewrite Hlen, (proj2 (Nat.eqb_neq _ _) Hn). cbn [PyNum.bind]. eauto.
Qed.

Lemma ready_predicts (self : GoldPricePredictor) (data : list row) :
  ready self -> (sequence_length self <= length data)%nat ->
  exists v, predict_next_day self data = Ok v.
Proof.
  intros (Ht & (f & Hm) & Hp & Hs & Hw) Hlen.
  apply (predict_next_day_features self data _ f Ht Hm Hp Hs Hw).
  - destruct data; [cbn in Hlen; lia | discriminate].
  - lia.
Qed.

Lemma ready_refuses_short (self : GoldPricePredictor) (data : list row) :
  ready self -> (length data < sequence_length self)%nat ->
  exists msg, predict_next_day self data = Raise (ValueError msg).
Proof.
  intros (Ht & (f & Hm) & Hp & Hs & Hw) Hlen.
  destruct (predict_next_day_features self data _ f Ht Hm Hp Hs Hw) as (H0 & _ & H2).
  destruct data as [|r data]; [rewrite H0 by reflexivity; eauto|].
  apply H2; [discriminate|]. lia.
Qed.

Lemma last_date_nonempty (data : list row) :
  data <> [] -> exists d, last_date data = Ok d.
Proof.
  intros H. unfold last_date. destruct (last data) eqn:E; [eauto|].
  apply last_None in E. contradiction.
Qed.

Lemma sequence_cons {A : Type} (m : result A) (l : list (result A)) (a : A) (rest : list A) :
  m = Ok a -> sequence l = Ok rest -> sequence (m :: l) = Ok (a :: rest).
Proof. intros -> H. cbn. rewrite H. reflexivity. Qed.

(** The loop of [predict_next_week], started on the working series
    after [k] steps, produces the estimates of the steps [k], [k+1],
    ... of the specification. *)
Lemma week_loop_horizon (self : GoldPricePredictor) (data : list row) :
  ready self ->
  forall (days k : nat) (current_data : list row) (predictions : list Q),
    working_series self data k = Ok current_data ->
    (sequence_length self <= length current_data)%nat ->
    exists ps,
      sequence (map (horizon_estimate self data) (seq k days)) = Ok ps
      /\ length ps = days
      /\ week_loop self days current_data predictions = Ok (predictions ++ ps).
Proof.
  intros Hready days.
  induction days as [|days IH]; intros k cur acc Hk Hlen.
  - exists []. cbn. rewrite app_nil_r. auto.
  - destruct (ready_predicts self cur Hready Hlen) as (v & Hv).
    destruct (last_date_nonempty cur) as (d & Hd).
    { destruct Hready as (_ & _ & _ & _ & Hw). destruct cur; [cbn in Hlen; lia|discriminate]. }
    assert (Hk' : working_series self data (S k)
                  = Ok (cur ++ [new_row (d + 1)%Z v (mean (map Sentiment_score cur))])).
    { cbn [working_series]. rewrite Hk. cbn [PyNum.bind]. rewrite Hv, Hd. reflexivity. }
    destruct (IH (S k) _ (acc ++ [v]) Hk') as (ps & Hps & Lps & Hloop).
    { rewrite length_app. cbn [length]. lia. }
    exists (v :: ps). split; [|split].
    + cbn [seq map]. apply sequence_cons; [|exact Hps].
      unfold horizon_estimate. rewrite Hk. exact Hv.
    + cbn [length]. lia.
    + cbn [week_loop]. rewrite Hv. cbn [PyNum.bind]. rewrite Hd. cbn [PyNum.bind].
      rewrite Hloop, <- app_assoc. reflexivity.
Qed.

Lemma sequence_nth {A : Type} (f : nat -> result A) (d : A) :
  forall (n a : nat) (ps : list A),
    sequence (map f (seq a n)) = Ok ps ->
    forall k, (k < n)%nat -> f (a + k)%nat = Ok (nth k ps d).
Proof.
  induction n as [|n IH]; intros a ps H k Hk; [lia|].
  cbn [seq map sequence] in H.
  destruct (f a) as [x|e] eqn:Ea; [|discriminate H]. cbn [PyNum.bind] in H.
  destruct (sequence (map f (seq (S a) n))) as [rest|e] eqn:Er; [|discriminate H].
  cbn [PyNum.bind] in H. injection H as <-.
  destruct k as [|k].
  - rewrite Nat.add_0_r. exact Ea.
  - cbn [nth]. rewrite Nat.add_succ_r, <- Nat.add_succ_l. apply (IH _ _ Er). lia.
Qed.

Lemma working_series_length (self : GoldPricePredictor) (data : list row) :
  forall (k : nat) (series : list row),
    working_series self data k = Ok series ->
    length series = (length data + k)%nat.
Proof.
  induction k as [|k IH]; intros series H; cbn [working_series] in H.
  - injection H as <-. lia.
  - destruct (working_series self data k) as [s0|] eqn:E; [|discriminate H].
    cbn [PyNum.bind] in H.
    destruct (predict_next_day self s0) as [v|]; [|discriminate H].
    cbn [PyNum.bind] in H.
    destruct (last_date s0) as [d|]; [|discriminate H].
    cbn [PyNum.bind] in H. injection H as <-.
    rewrite length_app, (IH s0 eq_refl). cbn [length]. lia.
Qed.

(** A predictor that [train_model] returns can predict. *)
Lemma train_model_ready (learn : list (list Q) -> list Q -> list Q -> Q)
    (self self' : GoldPricePredictor) (data : list row) (validation_split : Q) :
  (1 <= sequence_length self)%nat ->
  train_model learn self data validation_split = Ok self' ->
  ready self' /\ sequence_length self' = sequence_length self.
Proof.
  intros Hw. unfold train_model, prepare_data.
  destruct (fit (map SF_Price data)) as [sp|] eqn:Esp; [|discriminate].
  cbn [PyNum.bind].
  destruct (transform sp (map SF_Price data)) as [ps|] eqn:Eps; [|discriminate].
  cbn [PyNum.bind].
  destruct (fit (map Sentiment_score data)) as [ss|] eqn:Ess; [|discriminate].
  cbn [PyNum.bind].
  destruct (transform ss (map Sentiment_score data)) as [sts|] eqn:Ests; [|discriminate].
  cbn [PyNum.bind].
  set (w := sequence_length self) in *.
  set (X := map _ (seq w (length ps - w))).
  destruct (take _ X) as [|x X1] eqn:Etr; [discriminate|].
  destruct (drop _ X) as [|x' X2] eqn:Eva; [discriminate|].
  intros [= <-]. unfold ready. cbn. split; [|reflexivity].
  pose proof (fit_bounds _ _ Esp) as Hsp.
  pose proof (fit_bounds _ _ Ess) as Hss.
  pose proof (transform_length _ _ _ Eps) as Lps. rewrite length_map in Lps.
  pose proof (transform_length _ _ _ Ests) as Lsts. rewrite length_map in Lsts.
  assert (Hx : In x X).
  { rewrite <- (take_drop (split_index (length X) validation_split) X), Etr.
    left. reflexivity. }
  subst X. apply in_map_iff in Hx as (i & <- & Hi). apply in_seq in Hi.
  split; [reflexivity|]. split.
  - eexists. do 2 f_equal. unfold slice.
    rewrite length_app, !length_take, !length_drop. lia.
  - auto.
Qed.

End PredictorFacts.

Section PredictorClaims.

Import DataPreprocessing GoldPredictor.

Lemma trained_on_2_ready : ready trained_on_2.
Proof.
  unfold ready. cbn. split; [reflexivity|]. split; [eauto|].
  split; [eauto|]. split; [eauto|lia].
Qed.

(** [trained_on_2] is what training on [five_days] with windows of two
    days gives. *)
Example train_model_five_days :
  train_model mean_learner (GoldPredictor.init 2) five_days 0.2 = Ok trained_on_2.
Proof. vm_compute. reflexivity. Qed.

(** C7, as amended.  A prediction before training fails with the
    ValueError "Model must be trained before making predictions".  For
    a predictor that is trained, with fitted scalers and a regressor
    fitted on windows of the predictor's own size W >= 1, a series of
    fewer than W rows fails with a ValueError raised by the input
    checks of the scaler or of the regressor, and a series of at least
    W rows gives a number.  No error class of its own exists for either
    failure. *)
Theorem predict_next_day_window (self : GoldPricePredictor) (data : list row) :
  (is_trained self = false ->
     predict_next_day self data = Raise (ValueError not_trained_message))
  /\ (ready self ->
      ((length data < sequence_length self)%nat ->
         exists msg, predict_next_day self data = Raise (ValueError msg))
      /\ ((sequence_length self <= length data)%nat ->
         exists v, predict_next_day self data = Ok v)).
Proof.
  split.
  - apply predict_next_day_untrained.
  - intros Hr. split.
    + apply ready_refuses_short, Hr.
    + apply ready_predicts, Hr.
Qed.

Lemma predict_next_day_window_witness :
  predict_next_day (GoldPredictor.init 30) five_days
    = Raise (ValueError not_trained_message)
  /\ (exists msg, predict_next_day trained_on_2 (take 1 five_days)
                  = Raise (ValueError msg))
  /\ (exists v, predict_next_day trained_on_2 (take 2 five_days) = Ok v).
Proof.
  split; [|split].
  - apply (proj1 (predict_next_day_window (GoldPredictor.init 30) five_days)).
    reflexivity.
  - apply (proj2 (predict_next_day_window trained_on_2 (take 1 five_days))
             trained_on_2_ready).
    cbn. lia.
  - apply (proj2 (predict_next_day_window trained_on_2 (take 2 five_days))
             trained_on_2_ready).
    cbn. lia.
Defined.

(** C7 as stated fails for a trained predictor whose state was loaded
    from files written for another window size: configured for W = 3
    with a regressor fitted on windows of 2, it predicts on a series of
    2 rows and fails on a series of exactly 3 rows. *)
Lemma predict_next_day_window_counterexample :
  load_model (GoldPredictor.init 3) default_model_path default_scaler_path
    (save_model trained_on_2 default_model_path default_scaler_path ∅)
  = trained_on_2_as_3
  /\ is_trained trained_on_2_as_3 = true
  /\ sequence_length trained_on_2_as_3 = 3%nat
  /\ length (take 2 five_days) = 2%nat
  /\ (exists v, predict_next_day trained_on_2_as_3 (take 2 five_days) = Ok v)
  /\ length (take 3 five_days) = 3%nat
  /\ (exists msg, predict_next_day trained_on_2_as_3 (take 3 five_days)
                  = Raise (ValueError msg)).
Proof.
  split; [vm_compute; reflexivity|].
  split; [reflexivity|]. split; [reflexivity|]. split; [reflexivity|].
  split; [eexists; vm_compute; reflexivity|].
  split; [reflexivity|].
  eexists. vm_compute. reflexivity.
Qed.

(** C6, as amended.  The horizon is fixed at seven days.  For a
    predictor that can predict and a series of at least W rows,
    [predict_next_week] returns exactly 7 numbers, the same as seven
    steps of the horizon forecast of the specification: the estimate of
    step k is the single-step prediction on the series extended by one
    synthetic row per earlier step, each carrying that step's
    prediction and the mean of the sentiment column of the series it
    was appended to. *)
Theorem predict_next_week_horizon (self : GoldPricePredictor) (data : list row) :
  ready self ->
  (sequence_length self <= length data)%nat ->
  exists ps,
    predict_next_week self data = Ok ps
    /\ length ps = 7%nat
    /\ predict_horizon self data 7 = Ok ps
    /\ (forall k, (k < 7)%nat ->
        exists series d,
          working_series self data k = Ok series
          /\ length series = (length data + k)%nat
          /\ predict_next_day self series = Ok (nth k ps 0)
          /\ last_date series = Ok d
          /\ working_series self data (S k)
             = Ok (series ++ [new_row (d + 1)%Z (nth k ps 0)
                                (mean (map Sentiment_score series))])).
Proof.
  intros Hr Hlen.
  destruct (week_loop_horizon self data Hr 7 0 data [] eq_refl Hlen)
    as (ps & Hps & Lps & Hloop).
  exists ps. split; [|split; [exact Lps|split; [exact Hps|]]].
  - unfold predict_next_week. destruct Hr as (-> & _). exact Hloop.
  - intros k Hk.
    pose proof (sequence_nth (horizon_estimate self data) 0 7 0 ps Hps k Hk) as Hest.
    cbn [Nat.add] in Hest. unfold horizon_estimate in Hest.
    destruct (working_series self data k) as [series|] eqn:Es; [|discriminate Hest].
    cbn [PyNum.bind] in Hest.
    pose proof (working_series_length self data k series Es) as Ls.
    destruct (last_date_nonempty series) as (d & Hd).
    { destruct Hr as (_ & _ & _ & _ & Hw). destruct series; [cbn in Ls; lia|discriminate]. }
    exists series, d. split; [reflexivity|]. split; [exact Ls|].
    split; [exact Hest|]. split; [exact Hd|].
    cbn [working_series]. rewrite Es. cbn [PyNum.bind]. rewrite Hest, Hd. reflexivity.
Qed.

Lemma predict_next_week_horizon_witness :
  exists ps,
    predict_next_week trained_on_2 five_days = Ok ps
    /\ length ps = 7%nat
    /\ predict_horizon trained_on_2 five_days 7 = Ok ps.
Proof.
  destruct (predict_next_week_horizon trained_on_2 five_days trained_on_2_ready)
    as (ps & H1 & H2 & H3 & _).
  - cbn. lia.
  - exists ps. split; [exact H1|]. split; [exact H2 | exact H3].
Defined.

(** C6 as stated fails twice: on a series shorter than the window no
    sequence is returned, and the code has no day count: where the
    forecast of the specification for 3 days has 3 estimates,
    [predict_next_week] returns 7. *)
Lemma predict_next_week_horizon_counterexample :
  (exists msg, predict_next_week trained_on_2 (take 1 five_days)
               = Raise (ValueError msg))
  /\ (exists ps3 ps7,
        predict_horizon trained_on_2 five_days 3 = Ok ps3
        /\ length ps3 = 3%nat
        /\ predict_next_week trained_on_2 five_days = Ok ps7
        /\ length ps7 = 7%nat).
Proof.
  split.
  - eexists. vm_compute. reflexivity.
  - eexists. eexists. split; [vm_compute; reflexivity|].
    split; [reflexivity|]. split; [vm_compute; reflexivity|]. reflexivity.
Qed.

(** C9, as amended.  [save_model] of a trained predictor writes the
    regressor and the two scalers, and nothing else: predictors that
    differ only in their window size write the same files.
    [load_model] from these files never fails: it marks the loading
    predictor trained, with the saved regressor and scalers, and keeps
    the loading predictor's own window size. *)
Theorem load_model_after_save (saved loading : GoldPricePredictor)
    (model_path scaler_path : string) (fs : gmap string pyobj) :
  is_trained saved = true ->
  model_path <> scaler_path ->
  (is_trained (load_model loading model_path scaler_path
                 (save_model saved model_path scaler_path fs)) = true
   /\ model (load_model loading model_path scaler_path
               (save_model saved model_path scaler_path fs)) = model saved
   /\ scaler_price (load_model loading model_path scaler_path
                      (save_model saved model_path scaler_path fs))
      = scaler_price saved
   /\ scaler_sentiment (load_model loading model_path scaler_path
                          (save_model saved model_path scaler_path fs))
      = scaler_sentiment saved
   /\ sequence_length (load_model loading model_path scaler_path
                         (save_model saved model_path scaler_path fs))
      = sequence_length loading)
  /\ (forall other,
        is_trained other = true ->
        model other = model saved ->
        scaler_price other = scaler_price saved ->
        scaler_sentiment other = scaler_sentiment saved ->
        save_model other model_path scaler_path fs
        = save_model saved model_path scaler_path fs).
Proof.
  intros Ht Hne. split.
  - unfold load_model, save_model. rewrite Ht.
    rewrite lookup_insert_ne by congruence. rewrite lookup_insert_eq.
    rewrite lookup_insert_eq. cbn. repeat split; reflexivity.
  - intros other Ho Hm Hp Hs. unfold save_model. rewrite Ht, Ho, Hm, Hp, Hs.
    reflexivity.
Qed.

Lemma load_model_after_save_witness :
  is_trained (load_model (GoldPredictor.init 3) default_model_path default_scaler_path
                (save_model trained_on_2 default_model_path default_scaler_path ∅))
  = true
  /\ sequence_length
       (load_model (GoldPredictor.init 3) default_model_path default_scaler_path
          (save_model trained_on_2 default_model_path default_scaler_path ∅))
     = 3%nat.
Proof.
  destruct (load_model_after_save trained_on_2 (GoldPredictor.init 3)
              default_model_path default_scaler_path ∅ eq_refl)
    as [(H1 & _ & _ & _ & H5) _].
  - discriminate.
  - split; [exact H1 | exact H5].
Defined.

(** C9 as stated fails: the files written for windows of 2 and of 3
    are the same, so they do not record the window size, and a
    predictor configured for windows of 3 loads the files written for
    windows of 2 and ends up trained. *)
Lemma load_model_after_save_counterexample :
  sequence_length trained_on_2 = 2%nat
  /\ sequence_length trained_on_2_as_3 = 3%nat
  /\ save_model trained_on_2 default_model_path default_scaler_path ∅
     = save_model trained_on_2_as_3 default_model_path default_scaler_path ∅
  /\ is_trained
       (load_model (GoldPredictor.init 3) default_model_path default_scaler_path
          (save_model trained_on_2 default_model_path default_scaler_path ∅))
     = true.
Proof.
  split; [reflexivity|]. split; [reflexivity|]. split; [reflexivity|].
  vm_compute. reflexivity.
Qed.

End PredictorClaims.

(* ===================================================================== *)
(** * Further properties of the recommendation engine *)
(* ===================================================================== *)

Section EngineNumbers.

Import RecommendationEngine.

Lemma analyze_sentiment_Fin (s : Q) :
  exists st, analyze_sentiment (Fin s) = (st, Fin s)
    /\ (st = very_positive <-> 0.3 < s)
    /\ (st = positive <-> 0.1 < s /\ s <= 0.3)
    /\ (st = very_negative <-> s < -0.3)
    /\ (st = negative <-> -0.3 <= s /\ s < -0.1)
    /\ (st = neutral <-> -0.1 <= s /\ s <= 0.1).
Proof.
  unfold analyze_sentiment, fgt, flt.
  repeat case_cmp; cmp_to_prop;
    eexists; (split; [reflexivity|]);
    repeat split; intros; try discriminate; try lra.
Qed.




End EngineNumbers.


Section EngineExtras.

Import RecommendationEngine.

(** X2.  The engine's sentiment label of a finite score: very_positive
    iff s > 0.3, positive iff 0.1 < s <= 0.3, very_negative iff
    s < -0.3, negative iff -0.3 <= s < -0.1, neutral iff
    -0.1 <= s <= 0.1; the score is passed through unchanged. *)
Theorem analyze_sentiment_thresholds (s : Q) :
  exists st, analyze_sentiment (Fin s) = (st, Fin s)
    /\ (st = very_positive <-> 0.3 < s)
    /\ (st = positive <-> 0.1 < s /\ s <= 0.3)
    /\ (st = very_negative <-> s < -0.3)
    /\ (st = negative <-> -0.3 <= s /\ s < -0.1)
    /\ (st = neutral <-> -0.1 <= s /\ s <= 0.1).
Proof. apply analyze_sentiment_Fin. Qed.

End EngineExtras.

Section EngineReasoning.

Import RecommendationEngine.

Lemma first_chars_length (n : nat) (s : string) :
  (String.length (PyStr.first_chars n s) <= n)%nat.
Proof.
  unfold PyStr.first_chars. revert s.
  induction n as [|n IH]; intros [|c s]; cbn; try lia.
  specialize (IH s). lia.
Qed.

Lemma first_chars_prefix (n : nat) (s : string) :
  String.prefix (PyStr.first_chars n s) s = true.
Proof.
  unfold PyStr.first_chars. revert s.
  induction n as [|n IH]; intros [|c s]; cbn; try reflexivity.
  destruct (ascii_dec c c) as [_|N]; [apply IH | contradiction].
Qed.

(** The lines of [reasoning]: three lines on the factors, the news line
    when the news is not blank, the confidence line. *)
Lemma generate_recommendation_reasoning (c p s : pyfloat) (news : string)
    (r : Recommendation) :
  generate_recommendation c p s news = Ok r ->
  exists f1 f2 f3,
    reasoning r =
      [f1; f2; f3]
      ++ (if negb (PyStr.all_space news)
          then [LatestNews (PyStr.first_chars 100 news)] else [])
      ++ [ConfidenceLevel
            (if fgt (confidence r) (Fin 0.7) then High
             else if fgt (confidence r) (Fin 0.4) then Medium else Low)
            (confidence r)].
Proof.
  unfold generate_recommendation.
  destruct (analyze_price_trend c p) as [[t pct]|e]; [|discriminate].
  cbn [PyNum.bind]. rewrite (analyze_sentiment_pair s).
  generalize (fst (analyze_sentiment s)). intros st.
  generalize (calculate_confidence t st pct s). intros conf.
  destruct t, st; cbn [trend_in strength_in andb]; cbn -[PyStr.first_chars fgt];
    destruct (PyStr.all_space news); cbn -[PyStr.first_chars fgt];
    intros [= <-]; cbn -[PyStr.first_chars fgt]; eauto.
Qed.





End EngineReasoning.

Section EngineEdges.

Import RecommendationEngine.

(** On numbers the call returns unless the current price is zero. *)
Lemma generate_recommendation_returns
    (current predicted sentiment : pyfloat) (news : string) :
  ((exists q, current = Fin q /\ q == 0) ->
     generate_recommendation current predicted sentiment news = Raise ZeroDivisionError)
  /\ (~ (exists q, current = Fin q /\ q == 0) ->
      exists r, generate_recommendation current predicted sentiment news = Ok r).
Proof.
  split.
  - intros (q & -> & Hq). unfold generate_recommendation, analyze_price_trend, fdiv.
    rewrite (proj2 (Qeq_bool_iff q 0) Hq). reflexivity.
  - intros Hnz.
    destruct (analyze_price_trend_returns current predicted) as (t & pct & Ht).
    { intros q -> E. apply Hnz. eauto. }
    destruct (generate_recommendation_fields _ _ sentiment news _ _ Ht) as (r & Hr & _).
    eauto.
Qed.

(** X5.  The reasoning list of every returned recommendation: three
    lines on the factors, then one news line exactly when the news is
    not blank, holding at most the first 100 characters of the news,
    then the confidence line, which reads High iff the confidence is
    above 0.7, Medium iff it is above 0.4 and at most 0.7, and Low
    otherwise (also for a NaN confidence). *)
Theorem reasoning_lines (current predicted sentiment : pyfloat) (news : string)
    (r : Recommendation) :
  generate_recommendation current predicted sentiment news = Ok r ->
  exists f1 f2 f3 news_lines lvl,
    reasoning r = [f1; f2; f3] ++ news_lines ++ [ConfidenceLevel lvl (confidence r)]
    /\ (PyStr.all_space news = true -> news_lines = [])
    /\ (PyStr.all_space news = false ->
        exists excerpt,
          news_lines = [LatestNews excerpt]
          /\ (String.length excerpt <= 100)%nat
          /\ String.prefix excerpt news = true)
    /\ (forall x, confidence r = Fin x ->
          (lvl = High <-> 0.7 < x)
          /\ (lvl = Medium <-> 0.4 < x /\ x <= 0.7)
          /\ (lvl = Low <-> x <= 0.4))
    /\ (confidence r = NaN -> lvl = Low).
Proof.
  intros Hr.
  destruct (generate_recommendation_reasoning _ _ _ _ _ Hr) as (f1 & f2 & f3 & H).
  exists f1, f2, f3. eexists. eexists. split; [exact H|].
  split; [intros ->; reflexivity|].
  split.
  - intros ->. cbn [negb]. eexists. split; [reflexivity|].
    split; [apply first_chars_length | apply first_chars_prefix].
  - split.
    + intros x ->. unfold fgt.
      repeat case_cmp; cmp_to_prop; repeat split; intros; try discriminate; try lra.
    + intros ->. reflexivity.
Qed.

Lemma reasoning_lines_witness :
  exists r f1 f2 f3 news_lines lvl,
    generate_recommendation (Fin 1800) (Fin 1850) (Fin 0.5) "Gold prices surge" = Ok r
    /\ reasoning r = [f1; f2; f3] ++ news_lines ++ [ConfidenceLevel lvl (confidence r)].
Proof.
  destruct (proj2 (generate_recommendation_returns
                     (Fin 1800) (Fin 1850) (Fin 0.5) "Gold prices surge"))
    as (r & Hr).
  - intros (q & [= <-] & E). discriminate E.
  - destruct (reasoning_lines _ _ _ _ _ Hr) as (f1 & f2 & f3 & nl & lvl & H & _).
    exists r, f1, f2, f3, nl, lvl. split; [exact Hr | exact H].
Defined.

End EngineEdges.

Section Binary64Extras.

Import RecommendationEngine.

#[local] Set Warnings "-inexact-float".
Open Scope float_scope.

(** X1.  On binary64 numbers the action is decided by two comparisons.
    Unless the prices are builtin floats with a zero current price,
    [generate_recommendation] returns, with the percent change
    [(predicted - current) / current * 100] as the interpreter rounds
    it; the action is BUY iff that percent change is above 0.2 and the
    sentiment above 0.1, SELL iff the percent change is below -0.2 and
    the sentiment below -0.1, and HOLD otherwise.  Infinite and NaN
    inputs are included: a NaN fails every comparison. *)
Theorem recommendation_by_numbers (kind : Binary64.scalar)
    (current predicted sentiment : float) (news : string) :
  (kind = Binary64.builtin_float -> PrimFloat.is_zero current = false) ->
  exists r,
    Binary64.generate_recommendation kind current predicted sentiment news = Ok r
    /\ Binary64.price_change_pct r = (predicted - current) / current * 100
    /\ (Binary64.recommendation r = BUY <->
          (0.2 <? Binary64.price_change_pct r) = true /\ (0.1 <? sentiment) = true)
    /\ (Binary64.recommendation r = SELL <->
          (Binary64.price_change_pct r <? -0.2) = true /\ (sentiment <? -0.1) = true)
    /\ (Binary64.recommendation r = HOLD <->
          ~ ((0.2 <? Binary64.price_change_pct r) = true /\ (0.1 <? sentiment) = true)
          /\ ~ ((Binary64.price_change_pct r <? -0.2) = true
                /\ (sentiment <? -0.1) = true)).
Proof.
  intros Hz.
  destruct (generate_recommendation_chain kind current predicted sentiment news Hz)
    as (r & Hr & Hpct & _ & _ & _ & Hrec).
  exists r. split; [exact Hr|]. split; [exact Hpct|].
  rewrite Hrec, Hpct. clear Hrec Hpct Hr.
  generalize (Binary64.pct_change current predicted). intros x.
  destruct (threshold_order x (-1.0) (-0.2) 0.2 1.0 eq_refl eq_refl eq_refl)
    as (_ & _ & Hboth).
  destruct (0.2 <? x), (x <? -0.2), (0.1 <? sentiment), (sentiment <? -0.1);
    try discriminate (Hboth eq_refl); cbn [andb];
    intuition (try discriminate; try congruence).
Qed.

Lemma recommendation_by_numbers_witness :
  exists r,
    Binary64.generate_recommendation Binary64.builtin_float 1800 1750 (-0.4)
      EmptyString = Ok r
    /\ Binary64.price_change_pct r = (1750 - 1800) / 1800 * 100
    /\ (Binary64.recommendation r = SELL <->
          (Binary64.price_change_pct r <? -0.2) = true /\ (-0.4 <? -0.1) = true).
Proof.
  destruct (recommendation_by_numbers Binary64.builtin_float 1800 1750 (-0.4)
              EmptyString (fun _ => eq_refl)) as (r & Hr & Hpct & _ & Hsell & _).
  exists r. split; [exact Hr|]. split; [exact Hpct | exact Hsell].
Defined.

(** At a threshold the action follows the rounded percent change: the
    exact quotient of (1, 1.002) is 0.2 and that of (7.05, 7.0641) is
    above 0.2, the computed doubles are 0.20000000000000018 and 0.2. *)
Example recommendation_rounded_up :
  exists r,
    Binary64.generate_recommendation Binary64.builtin_float 1 1.002 0.5 EmptyString
    = Ok r
    /\ Binary64.recommendation r = BUY
    /\ Binary64.price_change_pct r = 0.20000000000000018.
Proof. eexists. split; [vm_compute; reflexivity|]. split; reflexivity. Qed.

Example recommendation_rounded_down :
  exists r,
    Binary64.generate_recommendation Binary64.builtin_float 7.05 7.0641 0.5 EmptyString
    = Ok r
    /\ Binary64.recommendation r = HOLD
    /\ Binary64.price_change_pct r = 0.2.
Proof. eexists. split; [vm_compute; reflexivity|]. split; reflexivity. Qed.

(** X4.  [generate_recommendation] fails in one way only.  On builtin
    floats it raises ZeroDivisionError exactly when the current price
    is zero (0.0 or -0.0), whatever the predicted price and the
    sentiment, NaN and infinities included.  On numpy.float64 prices
    it never raises: a zero current price gives an infinite or NaN
    percent change.  Every call that returns repeats the three inputs
    in its record. *)
Theorem generate_recommendation_zero_price (kind : Binary64.scalar)
    (current predicted sentiment : float) (news : string) :
  (Binary64.generate_recommendation kind current predicted sentiment news
   = Raise ZeroDivisionError
   <-> kind = Binary64.builtin_float /\ PrimFloat.is_zero current = true)
  /\ (~ (kind = Binary64.builtin_float /\ PrimFloat.is_zero current = true) ->
      exists r,
        Binary64.generate_recommendation kind current predicted sentiment news = Ok r
        /\ Binary64.current_price r = current
        /\ Binary64.predicted_price r = predicted
        /\ Binary64.sentiment_score r = sentiment).
Proof.
  assert (Hret : ~ (kind = Binary64.builtin_float /\ PrimFloat.is_zero current = true) ->
      exists r,
        Binary64.generate_recommendation kind current predicted sentiment news = Ok r
        /\ Binary64.current_price r = current
        /\ Binary64.predicted_price r = predicted
        /\ Binary64.sentiment_score r = sentiment).
  { intros Hnz.
    destruct (generate_recommendation_chain kind current predicted sentiment news)
      as (r & Hr & _ & H1 & H2 & H3 & _).
    - intros ->. destruct (PrimFloat.is_zero current); [|reflexivity].
      exfalso. apply Hnz. split; reflexivity.
    - exists r. auto. }
  split; [|exact Hret]. split.
  - intros Hraise.
    destruct kind, (PrimFloat.is_zero current) eqn:Ez; try (split; reflexivity);
      exfalso; destruct Hret as (r & Hr & _); try (intros [H1 H2]; discriminate);
      rewrite Hr in Hraise; discriminate Hraise.
  - intros [-> Ez].
    unfold Binary64.generate_recommendation, Binary64.analyze_price_trend, Binary64.fdiv.
    rewrite Ez. reflexivity.
Qed.

Lemma generate_recommendation_zero_price_witness :
  Binary64.generate_recommendation Binary64.builtin_float 0 1850 0.5 EmptyString
  = Raise ZeroDivisionError
  /\ (exists r,
        Binary64.generate_recommendation Binary64.numpy_float64 0 1850 0.5 EmptyString
        = Ok r
        /\ Binary64.current_price r = 0).
Proof.
  split.
  - apply (proj1 (generate_recommendation_zero_price Binary64.builtin_float
                    0 1850 0.5 EmptyString)).
    split; reflexivity.
  - destruct (proj2 (generate_recommendation_zero_price Binary64.numpy_float64
                       0 1850 0.5 EmptyString))
      as (r & Hr & Hc & _).
    + intros [H _]. discriminate H.
    + exists r. split; [exact Hr | exact Hc].
Defined.

(** A numpy zero price: the percent change is an infinity, the label
    strong_up and the confidence is capped at 1. *)
Example generate_recommendation_numpy_zero :
  exists r,
    Binary64.generate_recommendation Binary64.numpy_float64 0 1850 0.5 EmptyString
    = Ok r
    /\ Binary64.price_change_pct r = infinity
    /\ Binary64.recommendation r = BUY
    /\ Binary64.confidence r = 1.
Proof. eexists. split; [vm_compute; reflexivity|]. repeat split. Qed.

End Binary64Extras.

(* ===================================================================== *)
(** * Further properties of the keyword sentiment and the news feed *)
(* ===================================================================== *)

Section SentimentFacts.

Import RecommendationEngine RealTimeSentiment RealTimeSentimentFeed.

Lemma int_div_sign (a b : Z) :
  (0 < b)%Z ->
  (0 < int_div a b <-> (0 < a)%Z) /\ (int_div a b < 0 <-> (a < 0)%Z).
Proof.
  intros Hb. unfold int_div.
  assert (Hb' : 0 < inject_Z b) by (unfold Qlt; cbn; lia).
  assert (E : inject_Z a == inject_Z a / inject_Z b * inject_Z b).
  { field. intros H. rewrite H in Hb'. apply (Qlt_irrefl 0), Hb'. }
  assert (Ha : forall z : Z, (0 < inject_Z z <-> (0 < z)%Z)
                             /\ (inject_Z z < 0 <-> (z < 0)%Z)).
  { intros z. unfold Qlt. cbn. lia. }
  destruct (Ha a) as [Hp Hn].
  rewrite <- Hp, <- Hn. clear Hp Hn Ha.
  generalize dependent (inject_Z a / inject_Z b). intros q E.
  generalize dependent (inject_Z a). intros qa E.
  generalize dependent (inject_Z b). intros qb Hb' E.
  split; split; intros H.
  - rewrite E. apply Qmult_lt_0_compat; assumption.
  - destruct (Qlt_le_dec 0 q) as [Hq|Hq]; [exact Hq|]. exfalso.
    pose proof (Qmult_le_compat_r q 0 qb Hq (Qlt_le_weak _ _ Hb')) as Hm.
    rewrite Qmult_0_l, <- E in Hm. lra.
  - pose proof (Qmult_lt_compat_r q 0 qb Hb' H) as Hm.
    rewrite Qmult_0_l, <- E in Hm. exact Hm.
  - destruct (Qlt_le_dec q 0) as [Hq|Hq]; [exact Hq|]. exfalso.
    pose proof (Qmult_le_compat_r 0 q qb Hq (Qlt_le_weak _ _ Hb')) as Hm.
    rewrite Qmult_0_l, <- E in Hm. lra.
Qed.

Lemma lower_char_idempotent (c : ascii) :
  PyStr.lower_char (PyStr.lower_char c) = PyStr.lower_char c.
Proof.
  destruct c as [[] [] [] [] [] [] [] []]; reflexivity.
Qed.

Lemma lower_idempotent (s : string) : PyStr.lower (PyStr.lower s) = PyStr.lower s.
Proof.
  induction s as [|c s IH]; [reflexivity|].
  cbn [PyStr.lower]. rewrite lower_char_idempotent, IH. reflexivity.
Qed.

Lemma sample_titles_mention_gold (n : nat) :
  Forall (fun t => mentions_gold t = true) (take n sample_news).
Proof.
  apply Forall_take. repeat constructor.
Qed.

(** [fetch_gold_news] by cases on the page. *)
Lemma fetch_gold_news_cases (response : option (list string)) (num_articles : nat) :
  (response = None ->
     fetch_gold_news response num_articles = generate_sample_news num_articles)
  /\ (forall anchors, response = Some anchors ->
        (List.filter mentions_gold (take num_articles anchors) = [] ->
           fetch_gold_news response num_articles = generate_sample_news num_articles)
        /\ (List.filter mentions_gold (take num_articles anchors) <> [] ->
            fetch_gold_news response num_articles
            = map (fun t => {| title := t; source := "Reuters" |})
                  (List.filter mentions_gold (take num_articles anchors)))).
Proof.
  split; [intros ->; reflexivity|].
  intros anchors ->. unfold fetch_gold_news.
  destruct (List.filter mentions_gold (take num_articles anchors)) as [|t l];
    split; intros H; try reflexivity; try discriminate H. contradiction.
Qed.

(** What [fetch_gold_news] returns when asked for at least one article. *)
Lemma fetch_gold_news_articles (response : option (list string))
    (num_articles : nat) :
  (1 <= num_articles)%nat ->
  fetch_gold_news response num_articles <> []
  /\ (length (fetch_gold_news response num_articles) <= num_articles)%nat
  /\ Forall (fun a => mentions_gold (title a) = true)
       (fetch_gold_news response num_articles).
Proof.
  intros Hn.
  assert (Hs : generate_sample_news num_articles <> []
               /\ (length (generate_sample_news num_articles) <= num_articles)%nat
               /\ Forall (fun a => mentions_gold (title a) = true)
                    (generate_sample_news num_articles)).
  { unfold generate_sample_news. split; [|split].
    - destruct num_articles; [lia|]. discriminate.
    - rewrite length_map, length_take. lia.
    - apply Forall_map. cbn [title]. apply sample_titles_mention_gold. }
  destruct (fetch_gold_news_cases response num_articles) as [Hnone Hsome].
  destruct response as [anchors|]; [|rewrite Hnone by reflexivity; exact Hs].
  destruct (Hsome anchors eq_refl) as [Hempty Hfound].
  destruct (List.filter mentions_gold (take num_articles anchors)) as [|t l] eqn:E.
  - rewrite Hempty by reflexivity. exact Hs.
  - rewrite Hfound by discriminate. split; [discriminate|]. split.
    + rewrite length_map, <- E.
      pose proof (filter_length mentions_gold (take num_articles anchors)) as Hl.
      rewrite length_take in Hl. lia.
    + apply Forall_map. cbn [title]. apply Forall_forall.
      intros x Hx. rewrite <- E in Hx. apply list_elem_of_In, filter_In in Hx. apply Hx.
Qed.

End SentimentFacts.

Section SentimentExtras.

Import RecommendationEngine RealTimeSentiment RealTimeSentimentFeed.

(** X7.  The label that the keyword scorer returns is the label that
    the recommendation engine gives to the returned score, and it
    follows the sign of the count difference: a (very_)positive label
    needs more positive than negative hits, a (very_)negative label
    more negative than positive hits, and equal counts give neutral. *)
Theorem scorer_label_agrees (self : RealTimeSentimentAnalyzer) (text : string) :
  let p := count_hits (positive_keywords self) (PyStr.lower text) in
  let n := count_hits (negative_keywords self) (PyStr.lower text) in
  snd (analyze_sentiment self text)
    = fst (RecommendationEngine.analyze_sentiment (fst (analyze_sentiment self text)))
  /\ (snd (analyze_sentiment self text) = very_positive
      \/ snd (analyze_sentiment self text) = positive -> (n < p)%nat)
  /\ (snd (analyze_sentiment self text) = very_negative
      \/ snd (analyze_sentiment self text) = negative -> (p < n)%nat)
  /\ (p = n -> snd (analyze_sentiment self text) = neutral).
Proof.
  intros p n. unfold analyze_sentiment. fold p n.
  set (u := count_hits (neutral_keywords self) (PyStr.lower text)).
  destruct (Nat.eqb_spec (p + n + u) 0) as [E|E].
  - cbn [fst snd]. split; [reflexivity|].
    split; [intros [H|H]; discriminate H|].
    split; [intros [H|H]; discriminate H | reflexivity].
  - cbn [fst snd]. unfold RecommendationEngine.analyze_sentiment.
    destruct (int_div_sign (Z.of_nat p - Z.of_nat n) (Z.of_nat (p + n + u)))
      as [Hpos Hneg]; [lia|].
    generalize dependent (int_div (Z.of_nat p - Z.of_nat n) (Z.of_nat (p + n + u))).
    intros q Hpos Hneg. unfold fgt, flt.
    repeat case_cmp; cmp_to_prop; cbn [fst]; (split; [reflexivity|]);
      (split; [intros [H|H]; try discriminate H|]);
      try (split; [intros [H|H]; try discriminate H|]);
      try (assert (0 < q) as Hq by lra; apply Hpos in Hq; lia);
      try (assert (q < 0) as Hq by lra; apply Hneg in Hq; lia);
      try (intros Hpn;
           first [ reflexivity
                 | exfalso; assert (0 < q) as Hq by lra; apply Hpos in Hq; lia
                 | exfalso; assert (q < 0) as Hq by lra; apply Hneg in Hq; lia ]).
Qed.

(** X8.  The keyword scorer ignores the case of ASCII letters: a text
    and its lower-cased form get the same score and label. *)
Theorem scorer_ignores_case (self : RealTimeSentimentAnalyzer) (text : string) :
  analyze_sentiment self (PyStr.lower text) = analyze_sentiment self text.
Proof.
  unfold analyze_sentiment. rewrite lower_idempotent. reflexivity.
Qed.

(** X9.  Asked for at least one article, [fetch_gold_news] never
    returns an empty list.  When the request fails, or none of the
    first [num_articles] anchors of the page mentions gold, it returns
    exactly the sample headlines; otherwise it returns exactly the
    Reuters articles made of those anchors that mention gold, in page
    order.  It returns at most as many articles as asked for, and
    every title it returns mentions gold, precious, metal or bullion
    in some case. *)
Theorem fetch_gold_news_never_empty (response : option (list string))
    (num_articles : nat) :
  (1 <= num_articles)%nat ->
  fetch_gold_news response num_articles <> []
  /\ (length (fetch_gold_news response num_articles) <= num_articles)%nat
  /\ Forall (fun a => mentions_gold (title a) = true)
       (fetch_gold_news response num_articles)
  /\ (response = None ->
      fetch_gold_news response num_articles = generate_sample_news num_articles)
  /\ (forall anchors, response = Some anchors ->
        (List.filter mentions_gold (take num_articles anchors) = [] ->
           fetch_gold_news response num_articles = generate_sample_news num_articles)
        /\ (List.filter mentions_gold (take num_articles anchors) <> [] ->
            fetch_gold_news response num_articles
            = map (fun t => {| title := t; source := "Reuters" |})
                  (List.filter mentions_gold (take num_articles anchors)))).
Proof.
  intros Hn.
  destruct (fetch_gold_news_articles response num_articles Hn) as (H1 & H2 & H3).
  destruct (fetch_gold_news_cases response num_articles) as [H4 H5].
  auto 6.
Qed.

Lemma fetch_gold_news_never_empty_witness :
  fetch_gold_news (Some ["Home"; "Markets"]%string) 10 <> []
  /\ fetch_gold_news (Some ["Home"; "Markets"]%string) 10 = generate_sample_news 10.
Proof.
  destruct (fetch_gold_news_never_empty (Some ["Home"; "Markets"]%string) 10)
    as (H1 & _ & _ & _ & H5).
  - lia.
  - split; [exact H1|]. apply (H5 _ eq_refl). reflexivity.
Defined.

(** A page whose third anchor mentions gold: that anchor alone is
    returned, as a Reuters article. *)
Example fetch_gold_news_page :
  fetch_gold_news (Some ["Home"; "Markets"; "Gold rallies"; "Oil"]%string) 3
  = [ {| title := "Gold rallies"; source := "Reuters" |} ].
Proof. reflexivity. Qed.

End SentimentExtras.

(* ===================================================================== *)
(** * Further properties of the preprocessor *)
(* ===================================================================== *)

Section PreprocessMoreFacts.

Import DataPreprocessing.

Lemma lower_chars (s : string) :
  Forall (fun c => PyStr.lower_char c = c) (list_ascii_of_string (PyStr.lower s)).
Proof.
  induction s as [|c s IH]; cbn; constructor; [apply lower_char_idempotent | exact IH].
Qed.

Lemma lstrip_chars (P : ascii -> Prop) (s : string) :
  Forall P (list_ascii_of_string s) -> Forall P (list_ascii_of_string (PyStr.lstrip s)).
Proof.
  induction s as [|c s IH]; cbn; [auto|].
  intros H. destruct (PyStr.is_space c); [|exact H].
  apply IH. apply Forall_cons in H. tauto.
Qed.

Lemma rstrip_chars (P : ascii -> Prop) (s : string) :
  Forall P (list_ascii_of_string s) -> Forall P (list_ascii_of_string (PyStr.rstrip s)).
Proof.
  induction s as [|c s IH]; [auto|].
  intros H. cbn [PyStr.rstrip].
  destruct (PyStr.all_space (String c s)); [constructor|].
  cbn in *. apply Forall_cons in H as [Hc Hs]. constructor; auto.
Qed.

Lemma keep_alnum_space_chars (P : ascii -> Prop) (s : string) :
  Forall P (list_ascii_of_string s) ->
  Forall (fun c => (PyStr.is_alnum c || PyStr.is_space c) = true /\ P c)
    (list_ascii_of_string (PyStr.keep_alnum_space s)).
Proof.
  induction s as [|c s IH]; cbn; [constructor|].
  intros H. apply Forall_cons in H as [Hc Hs].
  destruct (PyStr.is_alnum c || PyStr.is_space c) eqn:E; cbn; auto.
Qed.

Lemma clean_news_chars (news : string) :
  Forall clean_char (list_ascii_of_string (clean_news news)).
Proof.
  unfold clean_news, clean_char. apply keep_alnum_space_chars.
  unfold PyStr.strip. apply rstrip_chars, lstrip_chars, lower_chars.
Qed.

Lemma sentiment_mapping_values (label : string) (sc : Q) :
  sentiment_mapping label = Some sc -> sc = -1 \/ sc = 0 \/ sc = 1.
Proof.
  unfold sentiment_mapping.
  repeat match goal with |- context [if ?b then _ else _] => destruct b end;
    intros [= <-]; auto.
Qed.

Lemma clean_sentiment_row_facts (raw : sentiment_raw) (r : sentiment_row) :
  clean_sentiment_row raw = Some r ->
  sraw_Date raw = Some (s_Date r)
  /\ sentiment_mapping (sraw_Sentiment raw) = Some (s_Sentiment_score r)
  /\ s_News r = clean_news (sraw_News raw).
Proof.
  unfold clean_sentiment_row.
  destruct (sraw_Date raw) as [d|]; [|discriminate].
  destruct (sentiment_mapping (sraw_Sentiment raw)) as [sc|]; [|discriminate].
  intros [= <-]. cbn. auto.
Qed.

(** A row is kept by [omap] iff some row of the frame maps to it. *)
Lemma omap_member {R S : Type} (keep : R -> option S) (frame : list R) (kept : S) :
  In kept (omap keep frame) <-> exists raw, keep raw = Some kept /\ In raw frame.
Proof.
  rewrite <- list_elem_of_In, list_elem_of_omap.
  split; intros (raw & H1 & H2); exists raw; rewrite list_elem_of_In in *; auto.
Qed.

Lemma Qsum_bounds (l : list Q) :
  Forall (fun q => -1 <= q /\ q <= 1) l ->
  - inject_Z (Z.of_nat (length l)) <= Qsum l
  /\ Qsum l <= inject_Z (Z.of_nat (length l)).
Proof.
  induction 1 as [|q l [Hlo Hhi] _ [IH1 IH2]].
  - cbn. split; discriminate.
  - cbn [Qsum fold_right length]. fold (Qsum l).
    rewrite Nat2Z.inj_succ, <- Z.add_1_r, inject_Z_plus.
    change (inject_Z 1) with 1. split; lra.
Qed.

Lemma mean_bounds (l : list Q) :
  l <> [] -> Forall (fun q => -1 <= q /\ q <= 1) l ->
  -1 <= mean l /\ mean l <= 1.
Proof.
  intros Hne H. destruct (Qsum_bounds l H) as [H1 H2]. unfold mean.
  assert (Hlen : 0 < inject_Z (Z.of_nat (length l))).
  { destruct l; [contradiction|]. unfold Qlt. cbn. lia. }
  split.
  - apply Qle_shift_div_l; [exact Hlen | lra].
  - apply Qle_shift_div_r; [exact Hlen | lra].
Qed.

Lemma group_nonempty (sentiment_data : list sentiment_row) (d : Z) :
  In d (map s_Date sentiment_data) -> group sentiment_data d <> [].
Proof.
  intros H. apply in_map_iff in H as (r & <- & Hr). unfold group.
  intros E. assert (Hin : In r (List.filter (fun r0 => bool_decide (s_Date r0 = s_Date r))
                                  sentiment_data)).
  { apply filter_In. split; [exact Hr|]. apply bool_decide_eq_true_2. reflexivity. }
  rewrite E in Hin. exact Hin.
Qed.

Lemma In_aggregate (sentiment_data : list sentiment_row) (d : daily_sentiment) :
  In d (aggregate_sentiment_by_date sentiment_data) ->
  d = aggregate_group sentiment_data (d_Date d)
  /\ In (d_Date d) (map s_Date sentiment_data).
Proof.
  intros H. pose proof (in_map d_Date _ _ H) as Hd.
  apply aggregate_dates_In in Hd.
  unfold aggregate_sentiment_by_date in H.
  apply in_map_iff in H as (k & <- & _). cbn [aggregate_group d_Date] in *.
  split; [reflexivity | exact Hd].
Qed.

Lemma Sorted_le_NoDup_lt (l : list Z) :
  Sorted Z.le l -> NoDup l -> StronglySorted Z.lt l.
Proof.
  intros Hs Hn. apply Sorted_StronglySorted in Hs; [|intros x y z; lia].
  induction Hs as [|x l Hs IH Hall]; [constructor|].
  apply NoDup_cons in Hn as [Hx Hn]. constructor; [apply IH, Hn|].
  apply Forall_forall. intros y Hy.
  rewrite Forall_forall in Hall. specialize (Hall y Hy).
  assert (x <> y) by (intros ->; contradiction). lia.
Qed.

Lemma unique_In (l : list string) (h : string) : In h (unique l) <-> In h l.
Proof.
  induction l as [|x l IH]; [reflexivity|].
  cbn [unique In]. rewrite filter_In, IH.
  destruct (String.eqb_spec x h) as [E|E]; cbn [negb]; split; intros H; auto.
  - destruct H as [H|[H _]]; auto.
  - destruct H as [H|H]; [contradiction|]. right. split; [exact H | reflexivity].
Qed.

Lemma unique_NoDup (l : list string) : NoDup (unique l).
Proof.
  induction l as [|x l IH]; [constructor|].
  cbn [unique]. apply NoDup_cons. split.
  - rewrite list_elem_of_In, filter_In. intros [_ H].
    rewrite String.eqb_refl in H. discriminate H.
  - apply NoDup_ListNoDup, List.NoDup_filter, NoDup_ListNoDup, IH.
Qed.

(** [x.unique()[:5]]: distinct values of the column, all of them or
    five. *)
Lemma first_five_distinct (l : list string) :
  NoDup (take 5 (unique l))
  /\ (length (take 5 (unique l)) <= 5)%nat
  /\ (forall h, In h (take 5 (unique l)) -> In h l)
  /\ ((forall h, In h l -> In h (take 5 (unique l)))
      \/ length (take 5 (unique l)) = 5%nat).
Proof.
  split.
  { pose proof (unique_NoDup l) as H.
    rewrite <- (take_drop 5 (unique l)) in H. apply NoDup_app in H. apply H. }
  split; [rewrite length_take; lia|].
  split.
  - intros h H. apply unique_In.
    rewrite <- (take_drop 5 (unique l)). apply in_or_app. left. exact H.
  - destruct (le_lt_dec (length (unique l)) 5) as [Hle|Hgt].
    + left. intros h H. rewrite take_ge by exact Hle. apply unique_In, H.
    + right. rewrite length_take. lia.
Qed.

(** The rows of the merged frame whose date has sentiment carry the
    aggregate of that date. *)
Lemma merged_matched (gold : list gold_row) (sentiment_data : list sentiment_row)
    (r : row) :
  In r (map fillna (merge_left gold (aggregate_sentiment_by_date sentiment_data))) ->
  In (Date r) (map s_Date sentiment_data) ->
  Sentiment_score r = d_Sentiment_score (aggregate_group sentiment_data (Date r))
  /\ News r = d_News (aggregate_group sentiment_data (Date r)).
Proof.
  intros Hin Hd. apply in_map_iff in Hin as (j & <- & Hj).
  unfold merge_left in Hj. apply in_flat_map in Hj as (g & _ & Hj).
  destruct (join_row_fields _ g j Hj) as [Edate _].
  cbn [fillna Date Sentiment_score News] in *. rewrite Edate in *.
  unfold join_row in Hj.
  destruct (List.filter _ (aggregate_sentiment_by_date sentiment_data))
    as [|m ms] eqn:E.
  - exfalso. apply aggregate_dates_In in Hd. apply in_map_iff in Hd as (d & Hk & Hd).
    assert (Hf : In d (List.filter (fun d0 => bool_decide (d_Date d0 = g_Date g))
                         (aggregate_sentiment_by_date sentiment_data))).
    { apply filter_In. split; [exact Hd|]. apply bool_decide_eq_true_2, Hk. }
    rewrite E in Hf. exact Hf.
  - apply in_map_iff in Hj as (d & <- & Hd'). cbn -[aggregate_group].
    assert (Hf : In d (List.filter (fun d0 => bool_decide (d_Date d0 = g_Date g))
                         (aggregate_sentiment_by_date sentiment_data)))
      by (rewrite E; exact Hd').
    apply filter_In in Hf as [Hagg Hk]. apply bool_decide_eq_true_1 in Hk.
    destruct (In_aggregate _ _ Hagg) as [Ed _].
    rewrite <- Hk, <- Ed. auto.
Qed.

End PreprocessMoreFacts.

Section PreprocessExtras.

Import DataPreprocessing GoldPredictor.

(** X11.  [clean_sentiment_data] keeps exactly the rows with a
    parseable date and a label among negative, neutral, positive and
    none, sorted ascending by date; every score it assigns is -1, 0 or
    1, and every cleaned headline consists of lower-case letters,
    digits and white space only. *)
Theorem clean_sentiment_data_rows (sentiment_file : list sentiment_raw) :
  Sorted Z.le (map s_Date (clean_sentiment_data sentiment_file))
  /\ clean_sentiment_data sentiment_file ≡ₚ omap clean_sentiment_row sentiment_file
  /\ (forall r, In r (clean_sentiment_data sentiment_file) ->
        (s_Sentiment_score r = -1 \/ s_Sentiment_score r = 0 \/ s_Sentiment_score r = 1)
        /\ Forall clean_char (list_ascii_of_string (s_News r))
        /\ exists raw, In raw sentiment_file
             /\ sraw_Date raw = Some (s_Date r)
             /\ sentiment_mapping (sraw_Sentiment raw) = Some (s_Sentiment_score r)
             /\ s_News r = clean_news (sraw_News raw))
  /\ (forall raw, In raw sentiment_file ->
        sraw_Date raw = None \/ sentiment_mapping (sraw_Sentiment raw) = None ->
        clean_sentiment_row raw = None).
Proof.
  split; [apply sort_values_sorted|].
  split; [apply sort_values_perm|].
  split.
  - intros r Hr. unfold clean_sentiment_data in Hr. apply In_sort_values in Hr.
    apply omap_member in Hr as (raw & Hc & Hraw).
    destruct (clean_sentiment_row_facts raw r Hc) as (Hd & Hm & Hn).
    split; [apply (sentiment_mapping_values _ _ Hm)|].
    split; [rewrite Hn; apply clean_news_chars|].
    exists raw. auto.
  - intros raw _ [H|H]; unfold clean_sentiment_row; rewrite H;
      [reflexivity | destruct (sraw_Date raw); reflexivity].
Qed.

(** X12.  [aggregate_sentiment_by_date] returns one row per distinct
    date of its input, the dates strictly ascending; the score of a
    date is the mean of the scores of that date, so it stays within
    [-1, 1] when the scores do. *)
Theorem aggregate_sentiment_by_date_rows (sentiment_data : list sentiment_row) :
  StronglySorted Z.lt (map d_Date (aggregate_sentiment_by_date sentiment_data))
  /\ (forall d, In d (map d_Date (aggregate_sentiment_by_date sentiment_data))
                <-> In d (map s_Date sentiment_data))
  /\ (forall a, In a (aggregate_sentiment_by_date sentiment_data) ->
        group sentiment_data (d_Date a) <> []
        /\ d_Sentiment_score a
           = mean (map s_Sentiment_score (group sentiment_data (d_Date a)))
        /\ (Forall (fun r => -1 <= s_Sentiment_score r /\ s_Sentiment_score r <= 1)
              sentiment_data ->
            -1 <= d_Sentiment_score a /\ d_Sentiment_score a <= 1)).
Proof.
  split.
  { apply Sorted_le_NoDup_lt; [|apply aggregate_dates_NoDup].
    rewrite aggregate_dates.
    pose proof (sort_values_sorted id (remove_dups (map s_Date sentiment_data))) as H.
    rewrite map_id in H. exact H. }
  split; [apply aggregate_dates_In|].
  intros a Ha. destruct (In_aggregate _ _ Ha) as [Ea Hd].
  pose proof (group_nonempty _ _ Hd) as Hne.
  split; [exact Hne|]. split; [rewrite Ea at 1; reflexivity|].
  intros Hall. rewrite Ea at 1 2. cbn [aggregate_group d_Sentiment_score].
  apply mean_bounds.
  - intros E. apply Hne. destruct (group sentiment_data (d_Date a)); [reflexivity|discriminate].
  - apply Forall_map. unfold group. apply Forall_forall. intros r Hr.
    apply list_elem_of_In, filter_In in Hr as [Hr _].
    rewrite Forall_forall in Hall. apply Hall, list_elem_of_In, Hr.
Qed.

(** X13.  In the merged frame, every row whose date has a usable
    sentiment row carries the mean of the scores of the usable rows of
    that date, and a headline string that joins distinct cleaned
    headlines of that date by " | ": all of them when there are at
    most five, and five of them otherwise (which five is decided by
    the order in which sorting leaves the rows of one date).  The
    sentiment score of every row, matched or not, lies within
    [-1, 1]. *)
Theorem preprocess_all_sentiment (gold_file : list gold_raw)
    (sentiment_file : list sentiment_raw) :
  forall r, In r (preprocess_all gold_file sentiment_file) ->
    (In (Date r) (sentiment_dates sentiment_file) ->
       let rows := group (omap clean_sentiment_row sentiment_file) (Date r) in
       rows <> []
       /\ Sentiment_score r == mean (map s_Sentiment_score rows)
       /\ exists headlines,
            News r = PyStr.join " | " headlines
            /\ NoDup headlines
            /\ (length headlines <= 5)%nat
            /\ (forall h, In h headlines -> In h (map s_News rows))
            /\ ((forall h, In h (map s_News rows) -> In h headlines)
                \/ length headlines = 5%nat))
    /\ -1 <= Sentiment_score r /\ Sentiment_score r <= 1.
Proof.
  intros r Hr. unfold preprocess_all, merge_data in Hr. apply In_sort_values in Hr.
  assert (Hdates : In (Date r) (sentiment_dates sentiment_file)
                   <-> In (Date r) (map s_Date (clean_sentiment_data sentiment_file))).
  { unfold sentiment_dates, clean_sentiment_data.
    split; intros H; apply in_map_iff in H as (x & <- & Hx); apply in_map.
    - apply (proj2 (In_sort_values s_Date _ x)), Hx.
    - apply (proj1 (In_sort_values s_Date _ x)), Hx. }
  assert (Hgroup : group (clean_sentiment_data sentiment_file) (Date r)
                   = group (omap clean_sentiment_row sentiment_file) (Date r)).
  { unfold group, clean_sentiment_data. apply sort_values_group. }
  assert (Hmatch : In (Date r) (sentiment_dates sentiment_file) ->
     group (omap clean_sentiment_row sentiment_file) (Date r) <> []
     /\ Sentiment_score r
        = mean (map s_Sentiment_score
                  (group (omap clean_sentiment_row sentiment_file) (Date r)))
     /\ News r
        = PyStr.join " | "
            (take 5 (unique (map s_News
                               (group (omap clean_sentiment_row sentiment_file)
                                  (Date r)))))).
  { intros Hd. apply Hdates in Hd. rewrite <- Hgroup.
    split; [apply group_nonempty, Hd|].
    apply (merged_matched _ _ r Hr Hd). }
  split.
  - intros Hd rows. destruct (Hmatch Hd) as (Hne & Hs & Hn). subst rows.
    split; [exact Hne|]. split; [rewrite Hs; reflexivity|].
    exists (take 5 (unique (map s_News
                              (group (omap clean_sentiment_row sentiment_file) (Date r))))).
    split; [exact Hn|]. apply first_five_distinct.
  - destruct (in_dec Z.eq_dec (Date r) (sentiment_dates sentiment_file)) as [Hd|Hd].
    + destruct (Hmatch Hd) as (Hne & -> & _). apply mean_bounds.
      * intros E. apply Hne.
        destruct (group (omap clean_sentiment_row sentiment_file) (Date r));
          [reflexivity | discriminate].
      * apply Forall_map. unfold group. apply Forall_forall. intros x Hx.
        apply list_elem_of_In, filter_In in Hx as [Hx _].
        apply omap_member in Hx as (raw & Hc & _).
        destruct (clean_sentiment_row_facts raw x Hc) as (_ & Hm & _).
        destruct (sentiment_mapping_values _ _ Hm) as [-> | [-> | ->]]; split; discriminate.
    + assert (Hz : Sentiment_score r = 0).
      { apply (merged_unmatched _ _ r Hr). rewrite aggregate_dates_In, <- Hdates. exact Hd. }
      rewrite Hz. split; discriminate.
Qed.

Lemma preprocess_all_sentiment_witness :
  exists r,
    In r (preprocess_all three_price_rows two_headlines)
    /\ Date r = 1%Z
    /\ Sentiment_score r
       == mean (map s_Sentiment_score
                  (group (omap clean_sentiment_row two_headlines) (Date r)))
    /\ -1 <= Sentiment_score r /\ Sentiment_score r <= 1.
Proof.
  assert (Hin : In {| Date := 1; SF_Price := 1800; Sentiment_score := 1;
                      News := "gold up" |}
                  (preprocess_all three_price_rows two_headlines)).
  { vm_compute. left. reflexivity. }
  destruct (preprocess_all_sentiment three_price_rows two_headlines _ Hin)
    as (Hm & Hlo & Hhi).
  destruct Hm as (_ & Hs & _).
  { vm_compute. left. reflexivity. }
  eexists. split; [exact Hin|]. split; [reflexivity|].
  split; [exact Hs|]. split; [exact Hlo | exact Hhi].
Defined.

(** Seven headlines of one date, given out of order: the first five in
    file order are kept. *)
Example preprocess_all_seven_headlines :
  map News (preprocess_all [ {| raw_Date := 1; raw_SF_Price := Some 1800 |} ]
              (map (fun h => {| sraw_Date := Some 1%Z; sraw_News := h;
                                sraw_Sentiment := "neutral" |})
                   ["a one"; "b two"; "c"; "d"; "e"; "f"; "g"]%string))
  = ["a one | b two | c | d | e"]%string.
Proof. vm_compute. reflexivity. Qed.

(** X14.  A price file without any valid row is no error for the
    preprocessor: it returns an empty frame, whatever the sentiment
    file; training on that frame then fails with the ValueError of the
    scaler. *)
Theorem preprocess_all_no_prices (gold_file : list gold_raw)
    (sentiment_file : list sentiment_raw)
    (learn : list (list Q) -> list Q -> list Q -> Q) (self : GoldPricePredictor)
    (validation_split : Q) :
  Forall (fun g => raw_SF_Price g = None) gold_file ->
  preprocess_all gold_file sentiment_file = []
  /\ train_model learn self (preprocess_all gold_file sentiment_file) validation_split
     = Raise (ValueError "Found array with 0 sample(s)").
Proof.
  intros Hall.
  assert (Hvalid : valid_price_rows gold_file = []).
  { unfold valid_price_rows. induction Hall as [|g l Hg _ IH]; [reflexivity|].
    cbn [omap list_omap]. unfold dropna_price at 1. rewrite Hg. exact IH. }
  assert (E : preprocess_all gold_file sentiment_file = []).
  { pose proof (preprocess_all_prices gold_file sentiment_file) as H.
    rewrite Hvalid in H. cbn [map] in H. apply Permutation_nil_r in H.
    destruct (preprocess_all gold_file sentiment_file); [reflexivity | discriminate H]. }
  split; [exact E|]. rewrite E. reflexivity.
Qed.

Lemma preprocess_all_no_prices_witness :
  preprocess_all [ {| raw_Date := 1; raw_SF_Price := None |} ] two_headlines = []
  /\ train_model mean_learner (GoldPredictor.init 30)
       (preprocess_all [ {| raw_Date := 1; raw_SF_Price := None |} ] two_headlines) 0.2
     = Raise (ValueError "Found array with 0 sample(s)").
Proof.
  apply preprocess_all_no_prices. repeat constructor.
Defined.

End PreprocessExtras.

(* ===================================================================== *)
(** * Further properties of the forecaster *)
(* ===================================================================== *)

Section PredictorMoreFacts.

Import DataPreprocessing GoldPredictor.

(** [fit_transform] on a non-empty column: the scaler is fitted and the
    scaled column has the length of the column. *)
Lemma fit_transform_length (column : list Q) :
  column <> [] ->
  exists sc l,
    fit column = Ok sc /\ transform sc column = Ok l
    /\ is_Some (data_bounds sc)
    /\ length l = length column.
Proof.
  destruct column as [|x xs]; [contradiction|]. intros _.
  eexists. eexists. split; [reflexivity|]. unfold transform. cbn [data_bounds].
  split; [reflexivity|]. split; [eauto | apply length_map].
Qed.

Lemma prepare_data_nonempty (self : GoldPricePredictor) (data : list row) :
  data <> [] ->
  exists sp ss ps sts,
    is_Some (data_bounds sp) /\ is_Some (data_bounds ss)
    /\ length ps = length data /\ length sts = length data
    /\ prepare_data self data
       = Ok (set_scalers self sp ss,
             (map (fun i => slice (i - sequence_length self) i ps
                            ++ slice (i - sequence_length self) i sts)
                  (seq (sequence_length self) (length ps - sequence_length self)),
              map (fun i => nth i ps 0)
                  (seq (sequence_length self) (length ps - sequence_length self)))).
Proof.
  intros Hne.
  destruct (fit_transform_length (map SF_Price data)) as (sp & ps & Fp & Tp & Bp & Lp).
  { destruct data; [contradiction | discriminate]. }
  destruct (fit_transform_length (map Sentiment_score data))
    as (ss & sts & Fs & Ts & Bs & Ls).
  { destruct data; [contradiction | discriminate]. }
  rewrite length_map in Lp, Ls.
  exists sp, ss, ps, sts. repeat (split; [assumption|]).
  unfold prepare_data. rewrite Fp. cbn [PyNum.bind]. rewrite Tp. cbn [PyNum.bind].
  rewrite Fs. cbn [PyNum.bind]. rewrite Ts. reflexivity.
Qed.

Lemma prepare_data_empty (self : GoldPricePredictor) :
  prepare_data self [] = Raise (ValueError "Found array with 0 sample(s)").
Proof. reflexivity. Qed.

Lemma length_slice {A : Type} (lo hi : nat) (l : list A) :
  (hi <= length l)%nat -> length (slice lo hi l) = (hi - lo)%nat.
Proof.
  intros H. unfold slice. rewrite length_take, length_drop. lia.
Qed.

Lemma split_index_02 (n : nat) :
  split_index n 0.2 = Z.to_nat (Z.of_nat n * 8 / 10).
Proof.
  reflexivity.
Qed.

Lemma split_index_02_bounds (n : nat) :
  ((2 <= n)%nat -> (1 <= split_index n 0.2 < n)%nat)
  /\ ((n <= 1)%nat -> split_index n 0.2 = 0%nat).
Proof.
  rewrite split_index_02.
  pose proof (Z.div_mod (Z.of_nat n * 8) 10 ltac:(lia)) as Hdiv.
  pose proof (Z.mod_pos_bound (Z.of_nat n * 8) 10 ltac:(lia)) as Hmod.
  split; intros H; lia.
Qed.

(** The outcome of [train_model] once the examples are prepared. *)
Lemma train_model_split (learn : list (list Q) -> list Q -> list Q -> Q)
    (self self1 : GoldPricePredictor) (data : list row) (validation_split : Q)
    (X : list (list Q)) (y : list Q) :
  prepare_data self data = Ok (self1, (X, y)) ->
  train_model learn self data validation_split
  = match take (split_index (length X) validation_split) X,
          drop (split_index (length X) validation_split) X with
    | [], _ => Raise (ValueError "Found array with 0 sample(s)")
    | _ :: _, [] => Raise (ValueError "Found array with 0 sample(s)")
    | x :: _, _ :: _ =>
        Ok (set_is_trained
              (set_model self1
                 (ObjRegressor
                    (Fitted (length x)
                       (learn (take (split_index (length X) validation_split) X)
                              (take (split_index (length X) validation_split) y)))))
              true)
    end.
Proof.
  intros H. unfold train_model. rewrite H. cbn [PyNum.bind].
  destruct (take _ X); [reflexivity|]. destruct (drop _ X); reflexivity.
Qed.

(** Training succeeds only on more rows than the window. *)
Lemma train_model_needs_rows (learn : list (list Q) -> list Q -> list Q -> Q)
    (self self' : GoldPricePredictor) (data : list row) (validation_split : Q) :
  train_model learn self data validation_split = Ok self' ->
  (sequence_length self < length data)%nat.
Proof.
  intros H.
  assert (Hne : data <> []).
  { intros ->. discriminate H. }
  destruct (prepare_data_nonempty self data Hne) as
    (sp & ss & ps & sts & _ & _ & Lp & _ & Hp).
  rewrite (train_model_split _ _ _ _ _ _ _ Hp) in H.
  destruct (take _ _) as [|x X1] eqn:Et; [discriminate H|].
  apply (f_equal length) in Et. rewrite length_take, length_map, length_seq in Et.
  cbn [length] in Et. lia.
Qed.

Lemma load_after_save_state (saved loading : GoldPricePredictor)
    (model_path scaler_path : string) (fs : gmap string pyobj) :
  is_trained saved = true ->
  model_path <> scaler_path ->
  load_model loading model_path scaler_path (save_model saved model_path scaler_path fs)
  = {| sequence_length := sequence_length loading;
       scaler_price := scaler_price saved;
       scaler_sentiment := scaler_sentiment saved;
       model := model saved;
       is_trained := true |}.
Proof.
  intros Ht Hne. unfold load_model, save_model. rewrite Ht.
  rewrite lookup_insert_ne by congruence. rewrite lookup_insert_eq.
  rewrite lookup_insert_eq. reflexivity.
Qed.

Lemma tail_app_ge {A : Type} (n : nat) (older l : list A) :
  (n <= length l)%nat -> tail n (older ++ l) = tail n l.
Proof.
  intros H. unfold tail. rewrite length_app.
  replace (length older + length l - n)%nat
    with (length older + (length l - n))%nat by lia.
  rewrite drop_app_add. reflexivity.
Qed.

End PredictorMoreFacts.

Section PredictorExtras.

Import DataPreprocessing GoldPredictor.

(** X15.  [prepare_data] on a non-empty series of n rows with window W
    refits both scalers and returns n - W examples (none when n <= W):
    every feature vector has exactly 2W entries, there is one label
    per example, and the window size, the model and the trained flag
    are left as they were.  On an empty series it raises the scaler's
    ValueError. *)
Theorem prepare_data_examples (self : GoldPricePredictor) (data : list row) :
  (data = [] ->
     prepare_data self data = Raise (ValueError "Found array with 0 sample(s)"))
  /\ (data <> [] ->
      exists self' X y,
        prepare_data self data = Ok (self', (X, y))
        /\ length X = (length data - sequence_length self)%nat
        /\ length y = (length data - sequence_length self)%nat
        /\ Forall (fun x => length x = (2 * sequence_length self)%nat) X
        /\ is_Some (data_bounds (scaler_price self'))
        /\ is_Some (data_bounds (scaler_sentiment self'))
        /\ sequence_length self' = sequence_length self
        /\ model self' = model self
        /\ is_trained self' = is_trained self).
Proof.
  split; [intros ->; apply prepare_data_empty|].
  intros Hne.
  destruct (prepare_data_nonempty self data Hne)
    as (sp & ss & ps & sts & Bp & Bs & Lp & Ls & Hp).
  eexists. eexists. eexists. split; [exact Hp|].
  rewrite !length_map, !length_seq, Lp.
  split; [reflexivity|]. split; [reflexivity|].
  split; [|cbn; auto].
  apply Forall_map. apply Forall_forall. intros i Hi.
  apply list_elem_of_In, in_seq in Hi.
  rewrite length_app, !length_slice by lia. lia.
Qed.

Lemma prepare_data_examples_witness :
  exists self' X y,
    prepare_data (GoldPredictor.init 2) five_days = Ok (self', (X, y))
    /\ length X = 3%nat /\ length y = 3%nat.
Proof.
  destruct (proj2 (prepare_data_examples (GoldPredictor.init 2) five_days))
    as (self' & X & y & H & LX & Ly & _).
  - discriminate.
  - exists self', X, y. split; [exact H|]. split; [exact LX | exact Ly].
Defined.

(** X16.  With the default validation split 0.2 and a window W >= 1,
    [train_model] succeeds exactly when the series has at least W + 2
    rows: fewer rows leave the training part of the split empty and the
    call raises ValueError.  A successful call leaves the predictor
    trained, with fitted scalers and a regressor fitted on 2W
    features. *)
Theorem train_model_needs_window_plus_two
    (learn : list (list Q) -> list Q -> list Q -> Q)
    (self : GoldPricePredictor) (data : list row) :
  (1 <= sequence_length self)%nat ->
  ((sequence_length self + 2 <= length data)%nat ->
     exists self', train_model learn self data 0.2 = Ok self' /\ ready self'
                   /\ sequence_length self' = sequence_length self)
  /\ ((length data < sequence_length self + 2)%nat ->
      train_model learn self data 0.2 = Raise (ValueError "Found array with 0 sample(s)")).
Proof.
  intros Hw.
  destruct data as [|r0 data0] eqn:Ed.
  { split; [cbn; lia | reflexivity]. }
  rewrite <- Ed. assert (Hne : data <> []) by (subst; discriminate). clear Ed.
  destruct (prepare_data_nonempty self data Hne)
    as (sp & ss & ps & sts & Bp & Bs & Lp & Ls & Hp).
  rewrite (train_model_split learn _ _ _ 0.2 _ _ Hp).
  set (X := map _ (seq (sequence_length self) (length ps - sequence_length self))).
  assert (LX : length X = (length data - sequence_length self)%nat).
  { subst X. rewrite length_map, length_seq, Lp. reflexivity. }
  destruct (split_index_02_bounds (length X)) as [Hbig Hsmall].
  split.
  - intros Hlen. destruct Hbig as [H1 H2]; [lia|].
    destruct (take (split_index (length X) 0.2) X) as [|x X1] eqn:Et.
    { apply (f_equal length) in Et. rewrite length_take in Et. cbn in Et. lia. }
    destruct (drop (split_index (length X) 0.2) X) as [|x' X2] eqn:Ev.
    { apply (f_equal length) in Ev. rewrite length_drop in Ev. cbn in Ev. lia. }
    eexists. split; [reflexivity|]. split; [|reflexivity].
    unfold ready. cbn. split; [reflexivity|].
    assert (Hx : In x X).
    { rewrite <- (take_drop (split_index (length X) 0.2) X), Et. left. reflexivity. }
    subst X. apply in_map_iff in Hx as (i & <- & Hi). apply in_seq in Hi.
    split; [|auto].
    eexists. do 2 f_equal. rewrite length_app, !length_slice by lia. lia.
  - intros Hlen. rewrite Hsmall by lia. reflexivity.
Qed.

Lemma train_model_needs_window_plus_two_witness :
  (exists self', train_model mean_learner (GoldPredictor.init 2) five_days 0.2 = Ok self'
                 /\ ready self')
  /\ train_model mean_learner (GoldPredictor.init 2) (take 3 five_days) 0.2
     = Raise (ValueError "Found array with 0 sample(s)").
Proof.
  split.
  - destruct (proj1 (train_model_needs_window_plus_two mean_learner
                       (GoldPredictor.init 2) five_days ltac:(cbn; lia)))
      as (self' & H & Hr & _).
    + cbn. lia.
    + exists self'. split; [exact H | exact Hr].
  - apply (proj2 (train_model_needs_window_plus_two mean_learner
                    (GoldPredictor.init 2) (take 3 five_days) ltac:(cbn; lia))).
    cbn. lia.
Defined.

(** X17.  Train, then predict: on the series that a predictor with
    window W >= 1 was just trained on with the default validation
    split 0.2, [predict_next_day] returns a number and
    [predict_next_week] returns seven. *)
Theorem train_then_predict (learn : list (list Q) -> list Q -> list Q -> Q)
    (self self' : GoldPricePredictor) (data : list row) :
  (1 <= sequence_length self)%nat ->
  train_model learn self data 0.2 = Ok self' ->
  (exists v, predict_next_day self' data = Ok v)
  /\ (exists ps, predict_next_week self' data = Ok ps /\ length ps = 7%nat).
Proof.
  intros Hw Ht.
  destruct (train_model_ready learn self self' data 0.2 Hw Ht) as [Hr Hs].
  pose proof (train_model_needs_rows learn self self' data 0.2 Ht) as Hlen.
  assert (Hlen' : (sequence_length self' <= length data)%nat) by lia.
  split; [apply ready_predicts; assumption|].
  destruct (week_loop_horizon self' data Hr 7 0 data [] eq_refl Hlen')
    as (ps & _ & Lps & Hloop).
  exists ps. split; [|exact Lps].
  unfold predict_next_week. destruct Hr as (-> & _). exact Hloop.
Qed.

Lemma train_then_predict_witness :
  (exists v, predict_next_day trained_on_2 five_days = Ok v)
  /\ (exists ps, predict_next_week trained_on_2 five_days = Ok ps /\ length ps = 7%nat).
Proof.
  apply (train_then_predict mean_learner (GoldPredictor.init 2) trained_on_2
           five_days).
  - cbn. lia.
  - vm_compute. reflexivity.
Defined.

(** X18.  Round trip.  A trained predictor saved to two distinct files
    and loaded into a predictor of the same window size gives back the
    saved predictor itself, hence the same next-day and next-week
    predictions on every series. *)
Theorem save_load_round_trip (saved loading : GoldPricePredictor)
    (model_path scaler_path : string) (fs : gmap string pyobj) (data : list row) :
  is_trained saved = true ->
  model_path <> scaler_path ->
  sequence_length loading = sequence_length saved ->
  load_model loading model_path scaler_path
    (save_model saved model_path scaler_path fs) = saved
  /\ predict_next_day
       (load_model loading model_path scaler_path
          (save_model saved model_path scaler_path fs)) data
     = predict_next_day saved data
  /\ predict_next_week
       (load_model loading model_path scaler_path
          (save_model saved model_path scaler_path fs)) data
     = predict_next_week saved data.
Proof.
  intros Ht Hne Hw.
  assert (E : load_model loading model_path scaler_path
                (save_model saved model_path scaler_path fs) = saved).
  { rewrite load_after_save_state by assumption. rewrite Hw.
    destruct saved. cbn in *. subst. reflexivity. }
  rewrite E. auto.
Qed.

Lemma save_load_round_trip_witness :
  load_model (GoldPredictor.init 2) default_model_path default_scaler_path
    (save_model trained_on_2 default_model_path default_scaler_path ∅) = trained_on_2.
Proof.
  apply (save_load_round_trip trained_on_2 (GoldPredictor.init 2)
           default_model_path default_scaler_path ∅ five_days).
  - reflexivity.
  - discriminate.
  - reflexivity.
Defined.

(** X19.  [save_model] of an untrained predictor writes nothing.
    [load_model] leaves the predictor untrained whenever the model
    file or the scaler file is missing, even if it was trained before,
    so the next prediction fails with the "must be trained" ValueError;
    when only the scaler file is missing the model attribute has
    already been replaced by the loaded object. *)
Theorem load_model_missing_file (self : GoldPricePredictor)
    (model_path scaler_path : string) (fs : gmap string pyobj) (data : list row) :
  (is_trained self = false -> save_model self model_path scaler_path fs = fs)
  /\ (fs !! model_path = None \/ fs !! scaler_path = None ->
      is_trained (load_model self model_path scaler_path fs) = false
      /\ predict_next_day (load_model self model_path scaler_path fs) data
         = Raise (ValueError not_trained_message)
      /\ predict_next_week (load_model self model_path scaler_path fs) data
         = Raise (ValueError not_trained_message))
  /\ (forall m, fs !! model_path = Some m -> fs !! scaler_path = None ->
        model (load_model self model_path scaler_path fs) = m
        /\ scaler_price (load_model self model_path scaler_path fs) = scaler_price self
        /\ scaler_sentiment (load_model self model_path scaler_path fs)
           = scaler_sentiment self).
Proof.
  split; [|split].
  - intros H. unfold save_model. rewrite H. reflexivity.
  - intros H.
    assert (E : is_trained (load_model self model_path scaler_path fs) = false).
    { unfold load_model. destruct (fs !! model_path) as [m|]; [|reflexivity].
      destruct H as [H|H]; [discriminate H|]. rewrite H. reflexivity. }
    split; [exact E|]. unfold predict_next_week.
    rewrite (predict_next_day_untrained _ data E), E. auto.
  - intros m Hm Hs. unfold load_model. rewrite Hm, Hs. cbn. auto.
Qed.

Lemma load_model_missing_file_witness :
  is_trained (load_model trained_on_2 default_model_path default_scaler_path ∅) = false
  /\ predict_next_day
       (load_model trained_on_2 default_model_path default_scaler_path ∅) five_days
     = Raise (ValueError not_trained_message).
Proof.
  destruct (proj1 (proj2 (load_model_missing_file trained_on_2 default_model_path
                            default_scaler_path ∅ five_days)))
    as (H1 & H2 & _).
  - left. reflexivity.
  - split; [exact H1 | exact H2].
Defined.

(** X20.  [predict_next_day] reads only the last W rows of the series:
    older rows put in front of a series of at least W rows do not
    change its outcome. *)
Theorem predict_next_day_last_window (self : GoldPricePredictor)
    (older data : list row) :
  (sequence_length self <= length data)%nat ->
  predict_next_day self (older ++ data) = predict_next_day self data.
Proof.
  intros H. unfold predict_next_day.
  rewrite !map_app, !tail_app_ge by (rewrite length_map; exact H). reflexivity.
Qed.

Lemma predict_next_day_last_window_witness :
  predict_next_day trained_on_2 (take 3 five_days ++ drop 3 five_days)
  = predict_next_day trained_on_2 (drop 3 five_days).
Proof.
  apply predict_next_day_last_window. cbn. lia.
Defined.

(** X21.  [predict_next_week] fails with the error of the first
    next-day prediction whenever that prediction fails; nothing is
    returned for the days before the failure. *)
Theorem predict_next_week_first_failure (self : GoldPricePredictor)
    (data : list row) (e : pyerr) :
  predict_next_day self data = Raise e ->
  predict_next_week self data = Raise e.
Proof.
  intros H. unfold predict_next_week.
  destruct (is_trained self) eqn:Et; cbn [negb].
  - cbn [week_loop]. rewrite H. reflexivity.
  - rewrite (predict_next_day_untrained self data Et) in H.
    injection H as <-. reflexivity.
Qed.

Lemma predict_next_week_first_failure_witness :
  predict_next_week trained_on_2 (take 1 five_days)
  = Raise (ValueError "X has a different number of features than the regressor expects").
Proof.
  apply predict_next_week_first_failure. vm_compute. reflexivity.
Defined.

End PredictorExtras.
